(** * Podcaster: the Telegram podcast bot, its session store and dispatcher

    A shallow embedding of the two copies of the bot that the repository
    holds, [internal/bot/bot.go] (module [InternalBot] below) and the
    monolithic [main.go] at the root (module [RootMain] below), and the
    properties of the session state machine proved about them.

    Conventions of the embedding.
    - A Go [string] is a sequence of bytes; Rocq's [string] is a sequence of
      8-bit [ascii], so [len(s)] is [String.length s] and [s[:n]] is
      [String.substring 0 n s].
    - [int64] chat identifiers are [Z]; the code never does arithmetic on
      them.
    - [map[int64]*UserState] is a [gmap Z UserState].  Every [*UserState] a
      handler holds is the record bound to its key for the whole time the
      handler uses it (updates are handled one at a time by the loop in
      [Run], and a key is only rebound by the reset of [/new], after which
      the old pointer is not used), so a write through the pointer is a
      write to the record bound to the key.
    - [sync.Mutex] is a boolean: [Lock] on a held mutex never returns
      (all handlers run on the one goroutine of the update loop, so nobody
      else can release it), [Unlock] on a free mutex is a fatal error.
    - Calls that leave the process (Telegram, OpenAI, the file system,
      standard output) are appended to a trace; what they answer is an
      input of the handler. *)

From stdpp Require Import gmap strings pretty.
From Stdlib Require Import Ascii Lia.

Local Open Scope Z_scope.

(** ** Data model *)

(** [type UserState struct] (the same in both files). *)
Record UserState := mkUserState {
  Category : string;
  Topic : string;
  WaitingFor : string;
  ScriptText : string
}.

Definition StateInitial : string := "initial".
Definition StateCategory : string := "category".
Definition StateTopic : string := "topic".

Definition set_Category (v : string) (st : UserState) : UserState :=
  mkUserState v (Topic st) (WaitingFor st) (ScriptText st).
Definition set_Topic (v : string) (st : UserState) : UserState :=
  mkUserState (Category st) v (WaitingFor st) (ScriptText st).
Definition set_WaitingFor (v : string) (st : UserState) : UserState :=
  mkUserState (Category st) (Topic st) v (ScriptText st).
Definition set_ScriptText (v : string) (st : UserState) : UserState :=
  mkUserState (Category st) (Topic st) (WaitingFor st) v.

(** [&UserState{WaitingFor: StateInitial}] *)
Definition freshUserState : UserState := mkUserState "" "" StateInitial "".

(** ** The Telegram and OpenAI values the bot builds *)

(** [tgbotapi.InlineKeyboardButton], with the two fields the bot fills. *)
Record InlineKeyboardButton := mkButton {
  Text : string;
  CallbackData : option string
}.

Global Instance InlineKeyboardButton_inhabited : Inhabited InlineKeyboardButton :=
  populate (mkButton "" None).

Definition NewInlineKeyboardButtonData (text data : string) : InlineKeyboardButton :=
  mkButton text (Some data).

(** What is handed to [b.tg.Send]. *)
Inductive Chattable :=
| MessageConfig (ChatID : Z) (text : string)
    (ReplyMarkup : option (list (list InlineKeyboardButton))) (ParseMode : string)
| AudioConfig (ChatID : Z) (FilePath : string) (Caption : string)
| CallbackConfig (CallbackQueryID : string) (text : string).

Definition NewMessage (chatID : Z) (text : string) : Chattable :=
  MessageConfig chatID text None "".
Definition ModeMarkdown : string := "Markdown".
Definition GPT4o : string := "gpt-4o".
Definition TTSModel1 : string := "tts-1".
Definition VoiceAlloy : string := "alloy".

(** Every call that leaves the process, in the order it is made. *)
Inductive Call :=
| TgSetMyCommands (commands : list (string * string))
| TgSend (c : Chattable)
| AiCreateChatCompletion (model prompt : string)
| AiCreateSpeech (model input voice : string)
| IoReadAll
| RespClose
| OsWriteFile (path : string) (data : list Byte.byte)
| OsRemove (path : string)
| FmtPrintln (s : string)
| LogPrintf.

(** What the outside answers while one update is handled.  A handler makes
    at most one chat completion call and one speech call per update. *)
Inductive ChatAnswer :=
| ChatError
| ChatResponse (Choices : list string).

Inductive SpeechAnswer :=
| SpeechError
| SpeechBody (read : option (list Byte.byte)).

Record Answers := mkAnswers {
  chat_answer : ChatAnswer;
  speech_answer : SpeechAnswer;
  write_ok : bool
}.

(** ** The bot and the monad of its handlers *)

Record Bot := mkBot {
  states : gmap Z UserState;
  mu : bool;
  trace : list Call
}.

(** A handler returns, panics (the process dies: nothing recovers), or
    blocks for ever on the mutex. *)
Inductive outcome (A : Type) :=
| Returns (a : A) (b : Bot)
| Panics (b : Bot)
| Blocks (b : Bot).
Arguments Returns {A} a b.
Arguments Panics {A} b.
Arguments Blocks {A} b.

Definition M (A : Type) : Type := Bot -> outcome A.

Definition ret {A} (a : A) : M A := fun b => Returns a b.
Definition bind {A B} (m : M A) (k : A -> M B) : M B :=
  fun b => match m b with
           | Returns a b' => k a b'
           | Panics b' => Panics b'
           | Blocks b' => Blocks b'
           end.
Definition panic {A} : M A := fun b => Panics b.

Declare Scope go_scope.
Delimit Scope go_scope with go.
Notation "x <- m ;; k" := (bind m (fun x => k))
  (at level 100, m at next level, right associativity) : go_scope.
Notation "m ;; k" := (bind m (fun _ => k))
  (at level 100, right associativity) : go_scope.
Local Open Scope go_scope.

(** [defer f()]: [f] runs when the body returns and also while it panics;
    it does not run if the body never comes back. *)
Definition defer {A} (f : M unit) (body : M A) : M A :=
  fun b => match body b with
           | Returns a b' =>
               match f b' with
               | Returns _ b'' => Returns a b''
               | Panics b'' => Panics b''
               | Blocks b'' => Blocks b''
               end
           | Panics b' =>
               match f b' with
               | Blocks b'' => Blocks b''
               | Returns _ b'' | Panics b'' => Panics b''
               end
           | Blocks b' => Blocks b'
           end.

Definition Lock : M unit :=
  fun b => if mu b then Blocks b else Returns tt (mkBot (states b) true (trace b)).
Definition Unlock : M unit :=
  fun b => if mu b then Returns tt (mkBot (states b) false (trace b)) else Panics b.

Definition call (c : Call) : M unit :=
  fun b => Returns tt (mkBot (states b) (mu b) (trace b ++ [c])).
Definition Send (c : Chattable) : M unit := call (TgSend c).

Definition lookupState (userID : Z) : M (option UserState) :=
  fun b => Returns (states b !! userID) b.
Definition storeState (userID : Z) (st : UserState) : M unit :=
  fun b => Returns tt (mkBot (<[userID := st]> (states b)) (mu b) (trace b)).

(** A field write [p.f = v] through the pointer bound to [userID]; a nil
    pointer (no binding) is a nil dereference. *)
Definition writeField (userID : Z) (f : UserState -> UserState) : M unit :=
  o <- lookupState userID ;;
  match o with
  | Some st => storeState userID (f st)
  | None => panic
  end.

(** A field read [p.f] through the pointer bound to [userID]. *)
Definition readState (userID : Z) : M UserState :=
  o <- lookupState userID ;;
  match o with
  | Some st => ret st
  | None => panic
  end.

(** ** Slices *)

(** A slice is a window [len] long at the start of a backing array, whose
    length is the capacity. *)
Record slice (A : Type) := mkSlice {
  backing : list A;
  len : nat
}.
Arguments mkSlice {A} backing len.
Arguments backing {A} s.
Arguments len {A} s.

Definition cap {A} (s : slice A) : nat := length (backing s).
Definition elems {A} (s : slice A) : list A := take (len s) (backing s).
Definition nilSlice {A} : slice A := mkSlice [] 0.

(** The capacity [append] asks for when the array is full
    ([nextslicecap] of the Go runtime, for one more element).  The
    allocator may round the size up to a size class; for the 72-byte
    button that leaves capacities 1 and 2 as they are. *)
Definition nextslicecap (newLen oldCap : nat) : nat :=
  let doublecap := (oldCap + oldCap)%nat in
  if (doublecap <? newLen)%nat then newLen
  else if (oldCap <? 256)%nat then doublecap
  else (oldCap + (oldCap + 3 * 256) / 4)%nat.

(** [append(s, x)] *)
Definition append {A} `{Inhabited A} (s : slice A) (x : A) : slice A :=
  if (len s <? cap s)%nat
  then mkSlice (<[len s := x]> (backing s)) (S (len s))
  else
    let newcap := nextslicecap (S (len s)) (cap s) in
    mkSlice (elems s ++ x :: replicate (newcap - S (len s)) inhabitant) (S (len s)).

(** [s[lo:hi]], read as the list of its elements; the bounds are checked
    against the capacity. *)
Definition sliceExpr {A} (s : slice A) (lo hi : nat) : option (list A) :=
  if ((lo <=? hi) && (hi <=? cap s))%nat
  then Some (take (hi - lo) (drop lo (backing s)))
  else None.

(** ** Functions that read the same in both files

    In internal/bot/bot.go they are methods of [*Bot]; in main.go they use
    the package variables.  The bodies are otherwise the same. *)

(** [strings.Split(input, ",")]: cut at every comma; always at least one
    piece. *)
Fixpoint Split (input : string) : list string :=
  match input with
  | EmptyString => [""]
  | String c rest =>
      if Ascii.eqb c ","%char
      then "" :: Split rest
      else match Split rest with
           | piece :: pieces => String c piece :: pieces
           | [] => [String c ""]
           end
  end.

Definition splitTopics (input : string) : list string := Split input.

(** [tgbotapi.NewInlineKeyboardRow(buttons...)] copies its arguments. *)
Definition NewInlineKeyboardRow (buttons : list InlineKeyboardButton)
  : list InlineKeyboardButton := buttons.

Definition buttonsOf (labels : list string) : slice InlineKeyboardButton :=
  foldl (fun buttons l => append buttons (NewInlineKeyboardButtonData l l))
        nilSlice labels.

Definition categories : list string := ["Auto"; "Health"; "Travel"; "ML"; "Media"].

Definition categoriesMessage (userID : Z) : Chattable :=
  MessageConfig userID "Choose podcast category:"
    (Some [NewInlineKeyboardRow (elems (buttonsOf categories))]) "".

Definition sendCategories (userID : Z) : M unit :=
  let msg := categoriesMessage userID in
  Lock ;;
  writeField userID (set_WaitingFor StateCategory) ;;
  Unlock ;;
  Send msg.

Definition topicsMessage (userID : Z) (row1 row2 : list InlineKeyboardButton) : Chattable :=
  MessageConfig userID "Choose a specific topic:"
    (Some [NewInlineKeyboardRow row1; NewInlineKeyboardRow row2]) "".

Definition sendTopics (userID : Z) (topics : list string) : M unit :=
  let buttons := buttonsOf topics in
  match sliceExpr buttons 0 3 with
  | None => panic
  | Some row1 =>
      match sliceExpr buttons 3 (len buttons) with
      | None => panic
      | Some row2 => Send (topicsMessage userID row1 row2)
      end
  end.

Definition errorMessage (userID : Z) : Chattable :=
  NewMessage userID "Error generating content. Please try again.".

Definition sendError (userID : Z) : M unit :=
  Send (errorMessage userID) ;;
  sendCategories userID.

Definition audioPath (userID : Z) : string := pretty userID +:+ ".mp3".

Definition generateAndSendAudio (ans : Answers) (userID : Z) (text : string) : M unit :=
  call (AiCreateSpeech TTSModel1 text VoiceAlloy) ;;
  match speech_answer ans with
  | SpeechError => sendError userID
  | SpeechBody read =>
      defer (call RespClose)
        (call IoReadAll ;;
         match read with
         | None => sendError userID
         | Some audioData =>
             call (OsWriteFile (audioPath userID) audioData) ;;
             if write_ok ans
             then defer (call (OsRemove (audioPath userID)))
                    (Send (AudioConfig userID (audioPath userID) "Here's your podcast, enjoy!"))
             else sendError userID
         end)
  end.

(** [b.ai.CreateChatCompletion] with one user message; [ChatError] is
    [err != nil]. *)
Definition CreateChatCompletion (ans : Answers) (prompt : string) : M ChatAnswer :=
  call (AiCreateChatCompletion GPT4o prompt) ;;
  ret (chat_answer ans).

(** [resp.Choices[0].Message.Content] *)
Definition firstChoice (Choices : list string) : M string :=
  match Choices with
  | content :: _ => ret content
  | [] => panic
  end.

Definition topicsPrompt (category : string) : string :=
  "Generate 5 podcast topics about " +:+ category +:+ ". Return as comma-separated list.".

Definition scriptPrompt (topic category : string) : string :=
  "Create a 2-minute podcast script about " +:+ topic +:+ " in " +:+ category
  +:+ " category. Keep it under 400 words.".

(** The text [/text] sends for a non-empty script. *)
Definition maxLength : nat := 4000.
Definition truncationMarker : string := String "010"%char "... [truncated]".

Definition textReply (script : string) : string :=
  if (maxLength <? String.length script)%nat
  then String.substring 0 maxLength script +:+ truncationMarker
  else script.

Definition noScriptMessage (userID : Z) : Chattable :=
  NewMessage userID "No script available. Please create a podcast first!".

(** ** Updates delivered by the transport *)

(** [tgbotapi.Message], with [msg.Chat.ID] and [msg.Text]. *)
Record Message := mkMessage {
  Chat_ID : Z;
  msg_Text : string
}.

(** [tgbotapi.CallbackQuery], with [query.ID], [query.Message.Chat.ID] and
    [query.Data].  The message pointer is taken to be set, as it is for
    the buttons of messages the bot itself sent. *)
Record CallbackQuery := mkCallbackQuery {
  ID : string;
  Message_Chat_ID : Z;
  Data : string
}.

Record Update := mkUpdate {
  upd_Message : option Message;
  upd_CallbackQuery : option CallbackQuery
}.

Definition botCommands : list (string * string) :=
  [("new", "Start new podcast creation"); ("text", "Get generated podcast text")].

(** * internal/bot/bot.go *)

Module InternalBot.

(** [New]: the bot right after construction. *)
Definition New : Bot := mkBot ∅ false [].

Definition getState (userID : Z) : M UserState :=
  Lock ;;
  defer Unlock
    (o <- lookupState userID ;;
     match o with
     | Some st => ret st
     | None => storeState userID freshUserState ;; ret freshUserState
     end).

Definition resetState (userID : Z) : M unit :=
  Lock ;;
  storeState userID freshUserState ;;
  Unlock.

Definition handleTextRequest (userID : Z) : M unit :=
  st <- getState userID ;;
  if String.eqb (ScriptText st) ""
  then Send (noScriptMessage userID)
  else Send (MessageConfig userID (textReply (ScriptText st)) None ModeMarkdown).

Definition handleMessage (msg : Message) : M unit :=
  let userID := Chat_ID msg in
  state <- getState userID ;;
  if String.eqb (msg_Text msg) "/new" then
    resetState userID ;;
    sendCategories userID
  else if String.eqb (msg_Text msg) "/text" then
    handleTextRequest userID
  else if String.eqb (WaitingFor state) StateInitial then
    sendCategories userID
  else ret tt.

Definition handleCategorySelection (ans : Answers) (userID : Z) (category : string) : M unit :=
  Lock ;;
  _ <- getState userID ;;
  writeField userID (set_Category category) ;;
  writeField userID (set_WaitingFor StateTopic) ;;
  Unlock ;;
  resp <- CreateChatCompletion ans (topicsPrompt category) ;;
  match resp with
  | ChatError => sendError userID
  | ChatResponse Choices =>
      content <- firstChoice Choices ;;
      sendTopics userID (splitTopics content)
  end.

(** Lines 186 to 192 of [handleTopicSelection]: everything before the
    script-generation call; the value is the prompt of that call. *)
Definition beginTopicSelection (userID : Z) (topic : string) : M string :=
  _ <- getState userID ;;
  Lock ;;
  writeField userID (set_Topic topic) ;;
  Unlock ;;
  st <- readState userID ;;
  ret (scriptPrompt topic (Category st)).

Definition handleTopicSelection (ans : Answers) (userID : Z) (topic : string) : M unit :=
  prompt <- beginTopicSelection userID topic ;;
  resp <- CreateChatCompletion ans prompt ;;
  match resp with
  | ChatError => sendError userID
  | ChatResponse Choices =>
      script <- firstChoice Choices ;;
      Lock ;;
      writeField userID (set_ScriptText script) ;;
      Unlock ;;
      generateAndSendAudio ans userID script
  end.

Definition handleCallback (ans : Answers) (query : CallbackQuery) : M unit :=
  let userID := Message_Chat_ID query in
  let data := Data query in
  state <- getState userID ;;
  (if String.eqb (WaitingFor state) StateCategory then
     handleCategorySelection ans userID data
   else if String.eqb (WaitingFor state) StateTopic then
     handleTopicSelection ans userID data
   else ret tt) ;;
  Send (CallbackConfig (ID query) "").

(** The body of the loop in [Run]. *)
Definition handleUpdate (ans : Answers) (update : Update) : M unit :=
  match upd_Message update with
  | Some msg => handleMessage msg
  | None =>
      match upd_CallbackQuery update with
      | Some query => handleCallback ans query
      | None => ret tt
      end
  end.

Fixpoint serve (updates : list (Update * Answers)) : M unit :=
  match updates with
  | [] => ret tt
  | (update, ans) :: rest => handleUpdate ans update ;; serve rest
  end.

(** [Run]; the value is [true] for a [nil] error.  [commands_ok] tells
    whether the command registration succeeds. *)
Definition Run (commands_ok : bool) (updates : list (Update * Answers)) : M bool :=
  call (TgSetMyCommands botCommands) ;;
  if commands_ok then serve updates ;; ret true else ret false.

End InternalBot.

(** * main.go *)

Module RootMain.

(** The package variables [userStates] and [statesMutex] before [main]. *)
Definition initial : Bot := mkBot ∅ false [].

Definition handleTextRequest (userID : Z) : M unit :=
  Lock ;;
  state <- readState userID ;;
  let script := ScriptText state in
  Unlock ;;
  if String.eqb script ""
  then Send (noScriptMessage userID)
  else Send (MessageConfig userID (textReply script) None ModeMarkdown).

Definition handleMessage (msg : Message) : M unit :=
  let userID := Chat_ID msg in
  Lock ;;
  o <- lookupState userID ;;
  (match o with
   | Some _ => ret tt
   | None => storeState userID freshUserState
   end) ;;
  state <- readState userID ;;
  Unlock ;;
  if String.eqb (msg_Text msg) "/new" then
    Lock ;;
    storeState userID freshUserState ;;
    Unlock ;;
    sendCategories userID
  else if String.eqb (msg_Text msg) "/text" then
    handleTextRequest userID
  else if String.eqb (WaitingFor state) StateInitial then
    sendCategories userID
  else ret tt.

Definition handleCategorySelection (ans : Answers) (userID : Z) (category : string) : M unit :=
  Lock ;;
  writeField userID (set_Category category) ;;
  writeField userID (set_WaitingFor StateTopic) ;;
  Unlock ;;
  resp <- CreateChatCompletion ans (topicsPrompt category) ;;
  match resp with
  | ChatError => sendError userID
  | ChatResponse Choices =>
      printed <- firstChoice Choices ;;
      call (FmtPrintln printed) ;;
      content <- firstChoice Choices ;;
      sendTopics userID (splitTopics content)
  end.

(** Lines 189 to 196 of [handleTopicSelection]: everything before the
    script-generation call; the value is the prompt of that call. *)
Definition beginTopicSelection (userID : Z) (topic : string) : M string :=
  Lock ;;
  writeField userID (set_Topic topic) ;;
  Unlock ;;
  state <- readState userID ;;
  ret (scriptPrompt topic (Category state)).

Definition handleTopicSelection (ans : Answers) (userID : Z) (topic : string) : M unit :=
  prompt <- beginTopicSelection userID topic ;;
  resp <- CreateChatCompletion ans prompt ;;
  match resp with
  | ChatError => sendError userID
  | ChatResponse Choices =>
      script <- firstChoice Choices ;;
      Lock ;;
      writeField userID (set_ScriptText script) ;;
      Unlock ;;
      generateAndSendAudio ans userID script
  end.

Definition handleCallback (ans : Answers) (query : CallbackQuery) : M unit :=
  let userID := Message_Chat_ID query in
  let data := Data query in
  Lock ;;
  state <- lookupState userID ;;
  Unlock ;;
  match state with
  | None => panic
  | Some state =>
      (if String.eqb (WaitingFor state) StateCategory then
         handleCategorySelection ans userID data
       else if String.eqb (WaitingFor state) StateTopic then
         handleTopicSelection ans userID data
       else ret tt) ;;
      Send (CallbackConfig (ID query) "")
  end.

Definition handleUpdate (ans : Answers) (update : Update) : M unit :=
  match upd_Message update with
  | Some msg => handleMessage msg
  | None =>
      match upd_CallbackQuery update with
      | Some query => handleCallback ans query
      | None => ret tt
      end
  end.

Fixpoint serve (updates : list (Update * Answers)) : M unit :=
  match updates with
  | [] => ret tt
  | (update, ans) :: rest => handleUpdate ans update ;; serve rest
  end.

(** [main] once the Telegram client exists; a failed command registration
    is only logged. *)
Definition main (commands_ok : bool) (updates : list (Update * Answers)) : M unit :=
  call (TgSetMyCommands botCommands) ;;
  (if commands_ok then ret tt else call LogPrintf) ;;
  serve updates.

End RootMain.

(** * Notions used in the statements *)

(** The binding of [userID] once [getState] has run. *)
Definition ensured (userID : Z) (sts : gmap Z UserState) : gmap Z UserState :=
  match sts !! userID with
  | Some _ => sts
  | None => <[userID := freshUserState]> sts
  end.

Definition session (userID : Z) (sts : gmap Z UserState) : UserState :=
  default freshUserState (sts !! userID).

(** The button of a label: text and callback data are both the label. *)
Definition button (l : string) : InlineKeyboardButton :=
  NewInlineKeyboardButtonData l l.

(** A slice whose window fits its backing array. *)
Definition slice_ok {A} (s : slice A) : Prop := (len s ≤ cap s)%nat.

(** The number of callback acknowledgments in a trace. *)
Definition isAck (c : Call) : bool :=
  match c with
  | TgSend (CallbackConfig _ _) => true
  | _ => false
  end.

Fixpoint acks (tr : list Call) : nat :=
  match tr with
  | [] => 0%nat
  | c :: tr => ((if isAck c then 1 else 0) + acks tr)%nat
  end.

(** Whether [generateAndSendAudio] ends in [sendError], and the calls it
    makes, by what the speech service and the file system answer. *)
Definition audioFails (ans : Answers) : bool :=
  match speech_answer ans with
  | SpeechError | SpeechBody None => true
  | SpeechBody (Some _) => negb (write_ok ans)
  end.

Definition errorCalls (userID : Z) : list Call :=
  [TgSend (errorMessage userID); TgSend (categoriesMessage userID)].

Definition audioCalls (ans : Answers) (userID : Z) (text : string) : list Call :=
  AiCreateSpeech TTSModel1 text VoiceAlloy ::
  match speech_answer ans with
  | SpeechError => errorCalls userID
  | SpeechBody None => IoReadAll :: errorCalls userID ++ [RespClose]
  | SpeechBody (Some audioData) =>
      IoReadAll :: OsWriteFile (audioPath userID) audioData ::
      (if write_ok ans
       then [TgSend (AudioConfig userID (audioPath userID) "Here's your podcast, enjoy!");
             OsRemove (audioPath userID)]
       else errorCalls userID)
      ++ [RespClose]
  end.

(** What handling a topic selection comes to, for a user whose session is
    [st]: the topic is recorded, the script is asked for, and then either
    the error path runs, or the response has no choice to read, or the
    script is stored and the audio is delivered. *)
Definition topicSelected (ans : Answers) (userID : Z) (topic : string)
    (st : UserState) (sts : gmap Z UserState) (tr : list Call) : outcome unit :=
  let asked := tr ++ [AiCreateChatCompletion GPT4o (scriptPrompt topic (Category st))] in
  match chat_answer ans with
  | ChatError =>
      Returns tt
        (mkBot (<[userID := mkUserState (Category st) topic StateCategory (ScriptText st)]> sts)
           false (asked ++ errorCalls userID))
  | ChatResponse [] =>
      Panics (mkBot (<[userID := set_Topic topic st]> sts) false asked)
  | ChatResponse (script :: _) =>
      Returns tt
        (mkBot (<[userID := mkUserState (Category st) topic
                              (if audioFails ans then StateCategory else WaitingFor st)
                              script]> sts)
           false (asked ++ audioCalls ans userID script))
  end.

(** What handling a category selection comes to in main.go. *)
Definition categorySelected (ans : Answers) (userID : Z) (category : string)
    (st : UserState) (sts : gmap Z UserState) (tr : list Call) : outcome unit :=
  let chosen := <[userID := mkUserState category (Topic st) StateTopic (ScriptText st)]> sts in
  let asked := tr ++ [AiCreateChatCompletion GPT4o (topicsPrompt category)] in
  match chat_answer ans with
  | ChatError =>
      Returns tt
        (mkBot (<[userID := mkUserState category (Topic st) StateCategory (ScriptText st)]> sts)
           false (asked ++ errorCalls userID))
  | ChatResponse [] => Panics (mkBot chosen false asked)
  | ChatResponse (content :: _) =>
      sendTopics userID (splitTopics content)
        (mkBot chosen false (asked ++ [FmtPrintln content]))
  end.

(** The acknowledgment that ends [handleCallback], if the handler it ran
    came back. *)
Definition thenAck (queryID : string) (o : outcome unit) : outcome unit :=
  match o with
  | Returns _ b =>
      Returns tt (mkBot (states b) (mu b) (trace b ++ [TgSend (CallbackConfig queryID "")]))
  | Panics b => Panics b
  | Blocks b => Blocks b
  end.

(** The bot of internal/bot/bot.go after user 7 sent [/new]: the session
    is at phase Category and the category offer is out. *)
Definition offered : Bot :=
  mkBot {[7 := mkUserState "" "" StateCategory ""]} false [TgSend (categoriesMessage 7)].

(** A bot with user 7 at phase Topic, category Health chosen. *)
Definition choosing : Bot :=
  mkBot {[7 := mkUserState "Health" "" StateTopic ""]} false [].

Definition pressed (data : string) : CallbackQuery := mkCallbackQuery "q1" 7 data.

(** The services fail, or answer. *)
Definition failing : Answers := mkAnswers ChatError SpeechError true.
Definition answering (content : string) : Answers :=
  mkAnswers (ChatResponse [content]) (SpeechBody (Some [])) true.
Definition speechless (content : string) : Answers :=
  mkAnswers (ChatResponse [content]) SpeechError true.

(** What handling a text message comes to, in both files: the session is
    looked up (and created if missing), then the command is run. *)
Definition messageHandled (msg : Message) (sts : gmap Z UserState) (tr : list Call)
  : outcome unit :=
  let userID := Chat_ID msg in
  let st := session userID sts in
  if String.eqb (msg_Text msg) "/new" then
    Returns tt (mkBot (<[userID := mkUserState "" "" StateCategory ""]> (ensured userID sts))
                  false (tr ++ [TgSend (categoriesMessage userID)]))
  else if String.eqb (msg_Text msg) "/text" then
    Returns tt (mkBot (ensured userID sts) false
                  (tr ++ [TgSend (if String.eqb (ScriptText st) ""
                                  then noScriptMessage userID
                                  else MessageConfig userID (textReply (ScriptText st))
                                         None ModeMarkdown)]))
  else if String.eqb (WaitingFor st) StateInitial then
    Returns tt (mkBot (<[userID := set_WaitingFor StateCategory st]> (ensured userID sts))
                  false (tr ++ [TgSend (categoriesMessage userID)]))
  else Returns tt (mkBot (ensured userID sts) false tr).

(** A property of every session of a store. *)
Definition all_sessions (Q : UserState → Prop) (sts : gmap Z UserState) : Prop :=
  ∀ u st, sts !! u = Some st → Q st.

(** Updates whose selection label, if they carry one, satisfies [P]. *)
Definition labelled (P : string → Prop) (update : Update) : Prop :=
  match upd_Message update, upd_CallbackQuery update with
  | None, Some query => P (Data query)
  | _, _ => True
  end.

Definition any_label : Update → Prop := labelled (λ _, True).
Definition nonempty_label : Update → Prop := labelled (λ data, data ≠ "").

(** The bots reached from an empty store by handling updates one after
    the other, each handler returning before the next update is taken. *)
Inductive reachable (handle : Answers → Update → M unit) (allowed : Update → Prop)
  : Bot → Prop :=
| reachable_start b :
    states b = ∅ → mu b = false → reachable handle allowed b
| reachable_step b ans update b' :
    reachable handle allowed b →
    allowed update →
    handle ans update b = Returns tt b' →
    reachable handle allowed b'.

(** The invariant of C8 on one session. *)
Definition topic_has_category (st : UserState) : Prop :=
  WaitingFor st = StateTopic → Category st ≠ "".

(** The only sessions internal/bot/bot.go ever holds. *)
Definition before_selection (st : UserState) : Prop :=
  st = freshUserState ∨ st = mkUserState "" "" StateCategory "".

Definition typed (chatID : Z) (text : string) : Update :=
  mkUpdate (Some (mkMessage chatID text)) None.
Definition selected (chatID : Z) (data : string) : Update :=
  mkUpdate None (Some (mkCallbackQuery "q1" chatID data)).

(** A script of 4001 bytes. *)
Definition longScript : string :=
  String.string_of_list_ascii (replicate 4001 "a"%char).

(** The bot a handler leaves behind, however it ends. *)
Definition final {A} (o : outcome A) : Bot :=
  match o with
  | Returns _ b => b
  | Panics b => b
  | Blocks b => b
  end.

(** The chat an update comes from, by the dispatch of the update loop. *)
Definition sender (update : Update) : option Z :=
  match upd_Message update with
  | Some msg => Some (Chat_ID msg)
  | None =>
      match upd_CallbackQuery update with
      | Some query => Some (Message_Chat_ID query)
      | None => None
      end
  end.

(** A store that differs from another at most in the binding of one
    user. *)
Definition touches_only (userID : Z) (sts sts' : gmap Z UserState) : Prop :=
  sts' = sts ∨ ∃ st, sts' = <[userID := st]> sts.

(** The commas of a string. *)
Fixpoint countCommas (s : string) : nat :=
  match s with
  | EmptyString => 0%nat
  | String c rest => ((if Ascii.eqb c ","%char then 1 else 0) + countCommas rest)%nat
  end.

Definition commaFree (s : string) : Prop := countCommas s = 0%nat.

(** The three values the code assigns to [WaitingFor]. *)
Definition known_phase (st : UserState) : Prop :=
  WaitingFor st = StateInitial ∨ WaitingFor st = StateCategory
  ∨ WaitingFor st = StateTopic.

Definition isAudio (c : Call) : bool :=
  match c with
  | TgSend (AudioConfig _ _ _) => true
  | _ => false
  end.

Definition isRemove (c : Call) : bool :=
  match c with
  | OsRemove _ => true
  | _ => false
  end.

(** Lines 155 to 168 of [handleCategorySelection] in
    internal/bot/bot.go: the suggestion call and everything after it. *)
Definition suggestTopics (ans : Answers) (userID : Z) (category : string) : M unit :=
  resp <- CreateChatCompletion ans (topicsPrompt category) ;;
  match resp with
  | ChatError => sendError userID
  | ChatResponse Choices =>
      content <- firstChoice Choices ;;
      sendTopics userID (splitTopics content)
  end.

(** The characters of a string, as UTF-8 counts them: every byte that is
    not a continuation byte (binary 10xxxxxx) starts one. *)
Definition isContinuation (c : ascii) : bool :=
  ((128 <=? nat_of_ascii c) && (nat_of_ascii c <? 192))%nat.

Fixpoint runeCount (s : string) : nat :=
  match s with
  | EmptyString => 0%nat
  | String c rest => ((if isContinuation c then 0 else 1) + runeCount rest)%nat
  end.

(** The letter e with an acute accent: two bytes in UTF-8. *)
Definition eAcute (rest : string) : string :=
  String "195"%char (String "169"%char rest).

(** A script of 2001 characters in 4001 bytes: one [a] and then 2000
    accented letters. *)
Definition accentedScript : string :=
  String "a"%char (Nat.iter 2000 eAcute EmptyString).

(** * Properties *)

Arguments textReply : simpl never.
Arguments categoriesMessage : simpl never.
Arguments topicsMessage : simpl never.
Arguments errorMessage : simpl never.
Arguments noScriptMessage : simpl never.
Arguments topicsPrompt : simpl never.
Arguments scriptPrompt : simpl never.
Arguments audioPath : simpl never.
Arguments buttonsOf : simpl never.
Arguments audioCalls : simpl never.

(** Unfolds the plumbing of the handler monad. *)
Ltac go :=
  cbv beta iota delta
    [bind ret panic defer Lock Unlock Send call
     lookupState storeState writeField readState states mu trace].

(** ** The shared senders *)

Lemma sendCategories_known sts tr userID st :
  sts !! userID = Some st →
  sendCategories userID (mkBot sts false tr)
  = Returns tt (mkBot (<[userID := set_WaitingFor StateCategory st]> sts) false
                      (tr ++ [TgSend (categoriesMessage userID)])).
Proof. intros Hst. unfold sendCategories. go. rewrite Hst. reflexivity. Qed.

Lemma sendCategories_unknown sts tr userID :
  sts !! userID = None →
  sendCategories userID (mkBot sts false tr) = Panics (mkBot sts true tr).
Proof. intros Hst. unfold sendCategories. go. rewrite Hst. reflexivity. Qed.

Lemma sendCategories_held sts tr userID :
  sendCategories userID (mkBot sts true tr) = Blocks (mkBot sts true tr).
Proof. reflexivity. Qed.

Lemma sendError_known sts tr userID st :
  sts !! userID = Some st →
  sendError userID (mkBot sts false tr)
  = Returns tt (mkBot (<[userID := set_WaitingFor StateCategory st]> sts) false
                      (tr ++ [TgSend (errorMessage userID);
                              TgSend (categoriesMessage userID)])).
Proof.
  intros Hst. unfold sendError. go.
  rewrite (sendCategories_known _ _ _ st Hst), <- app_assoc. reflexivity.
Qed.

(** ** The session store of internal/bot/bot.go *)

Lemma getState_known sts tr userID st :
  sts !! userID = Some st →
  InternalBot.getState userID (mkBot sts false tr) = Returns st (mkBot sts false tr).
Proof. intros Hst. unfold InternalBot.getState. go. rewrite Hst. reflexivity. Qed.

Lemma getState_unknown sts tr userID :
  sts !! userID = None →
  InternalBot.getState userID (mkBot sts false tr)
  = Returns freshUserState (mkBot (<[userID := freshUserState]> sts) false tr).
Proof. intros Hst. unfold InternalBot.getState. go. rewrite Hst. reflexivity. Qed.

Lemma getState_held sts tr userID :
  InternalBot.getState userID (mkBot sts true tr) = Blocks (mkBot sts true tr).
Proof. reflexivity. Qed.

Lemma resetState_free sts tr userID :
  InternalBot.resetState userID (mkBot sts false tr)
  = Returns tt (mkBot (<[userID := freshUserState]> sts) false tr).
Proof. reflexivity. Qed.

Lemma getState_free sts tr userID :
  InternalBot.getState userID (mkBot sts false tr)
  = Returns (session userID sts) (mkBot (ensured userID sts) false tr).
Proof.
  unfold session, ensured. destruct (sts !! userID) as [st|] eqn:Hst.
  - by rewrite (getState_known _ _ _ st).
  - by rewrite getState_unknown.
Qed.

Lemma ensured_lookup userID sts :
  ensured userID sts !! userID = Some (session userID sts).
Proof.
  unfold session, ensured. destruct (sts !! userID) as [st|] eqn:Hst; simpl.
  - done.
  - by rewrite lookup_insert_eq.
Qed.

Lemma ensured_frame userID sts u st :
  sts !! u = Some st → ensured userID sts !! u = Some st.
Proof.
  unfold ensured. intros Hu. destruct (sts !! userID) eqn:Hst; [done|].
  rewrite lookup_insert_ne; [done|]. intros ->. congruence.
Qed.

(** ** Strings *)

Lemma string_length_app (s1 s2 : string) :
  String.length (s1 +:+ s2) = (String.length s1 + String.length s2)%nat.
Proof. induction s1 as [|c s1 IH]; simpl; [done|]. by rewrite IH. Qed.

Lemma substring_prefix (n : nat) (s : string) :
  (n ≤ String.length s)%nat →
  String.length (String.substring 0 n s) = n
  ∧ ∃ rest, s = String.substring 0 n s +:+ rest.
Proof.
  revert s. induction n as [|n IH]; intros s Hn.
  - destruct s; simpl; (split; [done|]); eexists; reflexivity.
  - destruct s as [|c s]; simpl in Hn; [lia|].
    destruct (IH s) as [Hlen [rest Hrest]]; [lia|].
    simpl. split; [by rewrite Hlen|].
    exists rest. rewrite Hrest at 1. reflexivity.
Qed.

Lemma truncationMarker_length : String.length truncationMarker = 16%nat.
Proof. reflexivity. Qed.

Lemma textReply_long (script : string) :
  (4000 < String.length script)%nat →
  textReply script = String.substring 0 4000 script +:+ truncationMarker.
Proof.
  intros Hlen. unfold textReply, maxLength.
  by destruct (Nat.ltb_spec 4000 (String.length script)); [|lia].
Qed.

Lemma textReply_short (script : string) :
  (String.length script ≤ 4000)%nat → textReply script = script.
Proof.
  intros Hlen. unfold textReply, maxLength.
  by destruct (Nat.ltb_spec 4000 (String.length script)); [lia|].
Qed.

(** ** C9: get-or-create *)

(** C9. For a user identifier that is not in the session store, [getState]
    returns and stores a session at phase Initial whose category, topic
    and script are empty; for an identifier that is present it returns
    the stored session and leaves the store as it was.  (The mutex is
    free when a handler starts.) *)
Theorem getState_get_or_create (b : Bot) (userID : Z) :
  mu b = false →
  (states b !! userID = None →
     ∃ st, InternalBot.getState userID b
           = Returns st (mkBot (<[userID := st]> (states b)) false (trace b))
         ∧ WaitingFor st = StateInitial
         ∧ Category st = "" ∧ Topic st = "" ∧ ScriptText st = "")
  ∧ (∀ st, states b !! userID = Some st →
       InternalBot.getState userID b = Returns st b).
Proof.
  destruct b as [sts m tr]; simpl. intros ->. split.
  - intros Hst. exists freshUserState. by rewrite getState_unknown.
  - intros st Hst. by rewrite (getState_known _ _ _ st).
Qed.

Lemma getState_get_or_create_witness :
  (InternalBot.getState 7 InternalBot.New
   = Returns (mkUserState "" "" "initial" "")
       (mkBot {[7 := mkUserState "" "" "initial" ""]} false []))
  ∧ (InternalBot.getState 7
       (mkBot {[7 := mkUserState "Health" "Sleep" "topic" "text"]} false [])
     = Returns (mkUserState "Health" "Sleep" "topic" "text")
         (mkBot {[7 := mkUserState "Health" "Sleep" "topic" "text"]} false [])).
Proof.
  split.
  - destruct (getState_get_or_create InternalBot.New 7 eq_refl) as [Hnew _].
    destruct (Hnew eq_refl) as (st & Hrun & Hw & Hc & Ht & Hs).
    destruct st; simpl in *; subst. exact Hrun.
  - apply (getState_get_or_create
             (mkBot {[7 := mkUserState "Health" "Sleep" "topic" "text"]} false [])
             7 eq_refl).
    reflexivity.
Defined.

(** ** C3: the command that starts a new session *)

Ltac binds := cbv beta iota delta [bind ret Chat_ID msg_Text ID Message_Chat_ID Data].

(** Decides the comparisons of two string literals in the goal. *)
Ltac eqb_lit :=
  repeat match goal with
  | |- context [String.eqb ?a ?b] =>
      let v := eval vm_compute in (String.eqb a b) in
      match v with
      | true => change (String.eqb a b) with true
      | false => change (String.eqb a b) with false
      end
  end;
  cbv iota.

Lemma categoriesMessage_buttons (userID : Z) :
  categoriesMessage userID
  = MessageConfig userID "Choose podcast category:"
      (Some [[button "Auto"; button "Health"; button "Travel"; button "ML";
              button "Media"]]) "".
Proof. reflexivity. Qed.

(** C3. For every user and every prior store, handling [/new] returns,
    leaves that user's session at phase Category with category, topic and
    script empty, and sends the category offer (one row with the five
    categories) and nothing else; the other users' sessions are as they
    were. *)
Theorem new_session_offers_categories (b : Bot) (userID : Z) :
  mu b = false →
  ∃ b', InternalBot.handleMessage (mkMessage userID "/new") b = Returns tt b'
      ∧ states b' !! userID = Some (mkUserState "" "" StateCategory "")
      ∧ trace b' = trace b
                   ++ [TgSend (MessageConfig userID "Choose podcast category:"
                                 (Some [button <$> categories]) "")]
      ∧ mu b' = false
      ∧ ∀ u, u ≠ userID → states b' !! u = states b !! u.
Proof.
  destruct b as [sts m tr]; simpl. intros ->.
  unfold InternalBot.handleMessage. binds.
  rewrite getState_free. eqb_lit. binds.
  rewrite resetState_free.
  rewrite (sendCategories_known _ _ _ freshUserState) by apply lookup_insert_eq.
  eexists. split; [reflexivity|]. simpl.
  split; [by rewrite lookup_insert_eq|].
  split; [done|]. split; [done|].
  intros u Hu. rewrite !lookup_insert_ne by done.
  unfold ensured. destruct (sts !! userID); [done|]. by rewrite lookup_insert_ne.
Qed.

Lemma new_session_offers_categories_witness :
  ∃ b', InternalBot.handleMessage (mkMessage 7 "/new")
          (mkBot {[7 := mkUserState "Health" "Sleep" "topic" "text"]} false []) = Returns tt b'
      ∧ states b' !! 7 = Some (mkUserState "" "" "category" "")
      ∧ trace b' = [TgSend (MessageConfig 7 "Choose podcast category:"
                              (Some [button <$> categories]) "")].
Proof.
  destruct (new_session_offers_categories
              (mkBot {[7 := mkUserState "Health" "Sleep" "topic" "text"]} false []) 7 eq_refl)
    as (b' & Hrun & Hst & Htr & _).
  exists b'. repeat split; assumption.
Defined.

(** ** C10 and C5: the command that returns the script *)

Lemma handleTextRequest_free sts tr userID :
  InternalBot.handleTextRequest userID (mkBot sts false tr)
  = Returns tt
      (mkBot (ensured userID sts) false
         (tr ++ [TgSend
                   (if String.eqb (ScriptText (session userID sts)) ""
                    then noScriptMessage userID
                    else MessageConfig userID (textReply (ScriptText (session userID sts)))
                           None ModeMarkdown)])).
Proof.
  unfold InternalBot.handleTextRequest. binds. rewrite getState_free.
  by destruct (String.eqb _ _).
Qed.

Lemma ensured_idem userID sts : ensured userID (ensured userID sts) = ensured userID sts.
Proof. unfold ensured at 1. by rewrite ensured_lookup. Qed.

Lemma session_ensured userID sts : session userID (ensured userID sts) = session userID sts.
Proof. unfold session at 1. by rewrite ensured_lookup. Qed.

Lemma handleMessage_text sts tr userID :
  InternalBot.handleMessage (mkMessage userID "/text") (mkBot sts false tr)
  = InternalBot.handleTextRequest userID (mkBot sts false tr).
Proof.
  unfold InternalBot.handleMessage. binds. rewrite getState_free.
  eqb_lit.
  by rewrite !handleTextRequest_free, ensured_idem, session_ensured.
Qed.

(** C10. Handling [/text] returns and modifies no session: every session
    of the store is bound to the same record afterwards (the only change
    the store can see is the fresh Initial session that the lookup creates
    for a requester who had none), and the handler sends one message. *)
Theorem text_request_modifies_no_session (b : Bot) (userID : Z) :
  mu b = false →
  ∃ b' c,
    InternalBot.handleMessage (mkMessage userID "/text") b = Returns tt b'
    ∧ InternalBot.handleTextRequest userID b = Returns tt b'
    ∧ (∀ u st, states b !! u = Some st → states b' !! u = Some st)
    ∧ (∀ u, u ≠ userID → states b' !! u = states b !! u)
    ∧ (states b !! userID = None → states b' !! userID = Some freshUserState)
    ∧ trace b' = trace b ++ [TgSend c]
    ∧ mu b' = false.
Proof.
  destruct b as [sts m tr]; simpl. intros ->.
  rewrite handleMessage_text, handleTextRequest_free.
  eexists _, _. split; [reflexivity|]. split; [reflexivity|]. simpl.
  split; [by intros; apply ensured_frame|].
  split.
  { intros u Hu. unfold ensured. destruct (sts !! userID); [done|].
    by rewrite lookup_insert_ne. }
  split.
  { intros Hst. unfold ensured. rewrite Hst. by rewrite lookup_insert_eq. }
  done.
Qed.

Lemma text_request_modifies_no_session_witness :
  ∃ b', InternalBot.handleMessage (mkMessage 7 "/text")
          (mkBot {[7 := mkUserState "Health" "Sleep" "topic" "text";
                   8 := mkUserState "ML" "" "topic" ""]} false []) = Returns tt b'
      ∧ states b' !! 7 = Some (mkUserState "Health" "Sleep" "topic" "text")
      ∧ states b' !! 8 = Some (mkUserState "ML" "" "topic" "").
Proof.
  destruct (text_request_modifies_no_session
              (mkBot {[7 := mkUserState "Health" "Sleep" "topic" "text";
                       8 := mkUserState "ML" "" "topic" ""]} false []) 7 eq_refl)
    as (b' & c & Hrun & _ & Hframe & _).
  exists b'. split; [exact Hrun|].
  split; apply Hframe; reflexivity.
Defined.

(** What [/text] sends, counted in bytes as the code counts.  For every
    stored non-empty script, [/text] sends one message.  If the script is
    longer than 4000 bytes the message is its first 4000 bytes followed by
    the truncation marker, 4016 bytes in all; otherwise it is the script
    itself.  In both cases the message is at most 4096 bytes long. *)
Theorem text_request_reply (b : Bot) (userID : Z) (st : UserState) :
  mu b = false →
  states b !! userID = Some st →
  ScriptText st ≠ "" →
  ∃ text,
    InternalBot.handleTextRequest userID b
    = Returns tt (mkBot (states b) false
                    (trace b ++ [TgSend (MessageConfig userID text None ModeMarkdown)]))
    ∧ ((4000 < String.length (ScriptText st))%nat →
        ∃ head rest,
          ScriptText st = head +:+ rest
          ∧ String.length head = 4000%nat
          ∧ text = head +:+ truncationMarker
          ∧ String.length text = 4016%nat)
    ∧ ((String.length (ScriptText st) ≤ 4000)%nat → text = ScriptText st)
    ∧ (String.length text ≤ 4096)%nat.
Proof.
  destruct b as [sts m tr]; simpl. intros -> Hst Hne.
  rewrite handleTextRequest_free.
  unfold ensured, session. rewrite Hst. simpl.
  apply String.eqb_neq in Hne. rewrite Hne.
  exists (textReply (ScriptText st)). split; [reflexivity|].
  destruct (Nat.le_gt_cases (String.length (ScriptText st)) 4000) as [Hle|Hgt].
  - rewrite (textReply_short _ Hle).
    split; [intros; lia|]. split; [done|]. lia.
  - rewrite (textReply_long _ Hgt).
    destruct (substring_prefix 4000 (ScriptText st)) as [Hlen [rest Hrest]]; [lia|].
    assert (String.length (String.substring 0 4000 (ScriptText st) +:+ truncationMarker)
            = 4016%nat) as Htotal.
    { rewrite string_length_app, Hlen, truncationMarker_length. reflexivity. }
    split.
    { intros _. exists (String.substring 0 4000 (ScriptText st)), rest.
      split; [exact Hrest|]. split; [exact Hlen|]. split; [reflexivity|exact Htotal]. }
    split; [intros; lia|]. rewrite Htotal. lia.
Qed.

Lemma text_request_reply_witness :
  (∃ text,
     InternalBot.handleTextRequest 7
       (mkBot {[7 := mkUserState "Health" "Sleep" "topic" longScript]} false [])
     = Returns tt (mkBot {[7 := mkUserState "Health" "Sleep" "topic" longScript]} false
                     [TgSend (MessageConfig 7 text None ModeMarkdown)])
     ∧ String.length text = 4016%nat)
  ∧ (∃ text,
     InternalBot.handleTextRequest 7
       (mkBot {[7 := mkUserState "Health" "Sleep" "topic" "Hello."]} false [])
     = Returns tt (mkBot {[7 := mkUserState "Health" "Sleep" "topic" "Hello."]} false
                     [TgSend (MessageConfig 7 text None ModeMarkdown)])
     ∧ text = "Hello.").
Proof.
  split.
  - destruct (text_request_reply
                (mkBot {[7 := mkUserState "Health" "Sleep" "topic" longScript]} false [])
                7 (mkUserState "Health" "Sleep" "topic" longScript))
      as (text & Hrun & Hlong & _).
    { reflexivity. }
    { vm_compute. reflexivity. }
    { vm_compute. discriminate. }
    exists text. split; [exact Hrun|].
    destruct Hlong as (head & rest & _ & _ & _ & Hlen); [vm_compute; lia|].
    exact Hlen.
  - destruct (text_request_reply
                (mkBot {[7 := mkUserState "Health" "Sleep" "topic" "Hello."]} false [])
                7 (mkUserState "Health" "Sleep" "topic" "Hello."))
      as (text & Hrun & _ & Hshort & _).
    { reflexivity. }
    { reflexivity. }
    { discriminate. }
    exists text. split; [exact Hrun|].
    apply Hshort. simpl. lia.
Defined.

(** C5 (a defect, in both files). The claim counts characters: a script
    of at most 4000 characters is sent as it is, and a longer one is cut
    after its first 4000 characters.  The code counts and cuts bytes
    ([len(script)] and [script[:maxLength]]), although the comment in
    main.go gives the limit in characters.  On a script of 2001
    characters that takes 4001 bytes, [/text] does not send the script:
    it sends the first 4000 bytes, which end in the first byte of a
    two-byte character, followed by the truncation marker.  The same
    happens in a full run of main.go in which that script is the one
    generated. *)
Theorem text_request_cuts_bytes :
  runeCount accentedScript = 2001%nat
  ∧ String.length accentedScript = 4001%nat
  ∧ (∃ text,
       InternalBot.handleTextRequest 7
         (mkBot {[7 := mkUserState "Health" "Sleep" StateTopic accentedScript]} false [])
       = Returns tt
           (mkBot {[7 := mkUserState "Health" "Sleep" StateTopic accentedScript]} false
              [TgSend (MessageConfig 7 text None ModeMarkdown)])
       ∧ (∃ b,
            RootMain.serve
              [(typed 7 "/new", failing);
               (selected 7 "Health", answering "Nutrition,Sleep,Exercise,Hydration,Stress");
               (selected 7 "Sleep", answering accentedScript);
               (typed 7 "/text", failing)] RootMain.initial
            = Returns tt b
            ∧ states b !! 7 = Some (mkUserState "Health" "Sleep" StateTopic accentedScript)
            ∧ last (trace b) = Some (TgSend (MessageConfig 7 text None ModeMarkdown)))
       ∧ text = String.substring 0 4000 accentedScript +:+ truncationMarker
       ∧ text ≠ accentedScript
       ∧ String.get 3999 text = Some "195"%char
       ∧ String.get 4000 text = Some "010"%char
       ∧ runeCount (String.substring 0 3999 accentedScript) = 2000%nat).
Proof.
  split; [vm_compute; reflexivity|]. split; [vm_compute; reflexivity|].
  exists (String.substring 0 4000 accentedScript +:+ truncationMarker).
  split; [vm_compute; reflexivity|].
  split.
  { eexists. split; [vm_compute; reflexivity|].
    split; vm_compute; reflexivity. }
  split; [reflexivity|].
  split.
  { intros Heq. apply (f_equal String.length) in Heq. vm_compute in Heq. discriminate. }
  split; [vm_compute; reflexivity|].
  split; vm_compute; reflexivity.
Qed.

(** ** Slices and the topic offer *)

Section Slices.
Context {A : Type} `{Inhabited A}.
Implicit Types (s : slice A) (x : A).

Lemma nextslicecap_fits (n : nat) : (S n ≤ nextslicecap (S n) n)%nat.
Proof.
  unfold nextslicecap.
  destruct (Nat.ltb_spec (n + n) (S n)); [lia|].
  destruct (Nat.ltb_spec n 256); [lia|].
  assert (1 ≤ (n + 3 * 256) / 4)%nat; [|lia].
  apply Nat.div_le_lower_bound; lia.
Qed.

Lemma elems_length s : slice_ok s → length (elems s) = len s.
Proof. intros Hok. unfold elems. apply length_take_le, Hok. Qed.

Lemma append_len s x : len (append s x) = S (len s).
Proof. unfold append. by destruct (len s <? cap s)%nat. Qed.

Lemma append_elems s x : slice_ok s → elems (append s x) = elems s ++ [x].
Proof.
  intros Hok. unfold append.
  destruct (Nat.ltb_spec (len s) (cap s)) as [Hlt|Hge].
  - unfold elems; simpl.
    rewrite (take_S_r _ _ x) by (by apply list_lookup_insert_eq).
    by rewrite take_insert_ge.
  - unfold elems at 1; simpl.
    rewrite (cons_middle x), app_assoc. apply take_app_length'.
    rewrite length_app, (elems_length s Hok). simpl. lia.
Qed.

Lemma append_ok s x : slice_ok s → slice_ok (append s x).
Proof.
  intros Hok. unfold slice_ok. rewrite append_len. unfold append.
  destruct (Nat.ltb_spec (len s) (cap s)) as [Hlt|Hge]; unfold cap at 1; simpl.
  - rewrite length_insert. exact Hlt.
  - rewrite length_app, (elems_length s Hok). simpl. rewrite length_replicate.
    assert (cap s = len s) as -> by (unfold slice_ok in Hok; lia).
    pose proof (nextslicecap_fits (len s)) as Hfit. lia.
Qed.

Lemma foldl_append (f : string → A) (labels : list string) s :
  slice_ok s →
  let s' := foldl (λ acc l, append acc (f l)) s labels in
  slice_ok s' ∧ len s' = (len s + length labels)%nat
  ∧ elems s' = elems s ++ (f <$> labels).
Proof.
  revert s. induction labels as [|l labels IH]; intros s Hok; simpl.
  - split; [done|]. split; [lia|]. by rewrite app_nil_r.
  - destruct (IH (append s (f l)) (append_ok _ _ Hok)) as (Hok' & Hlen & Hel).
    split; [done|]. split; [rewrite Hlen, append_len; lia|].
    by rewrite Hel, append_elems, <- app_assoc.
Qed.

(** Inside the window a slice expression reads the elements. *)
Lemma sliceExpr_window s lo hi :
  slice_ok s → (lo ≤ hi ≤ len s)%nat →
  sliceExpr s lo hi = Some (drop lo (take hi (elems s))).
Proof.
  intros Hok [Hlo Hhi]. unfold sliceExpr, slice_ok in *.
  destruct (Nat.leb_spec lo hi); [|lia].
  destruct (Nat.leb_spec hi (cap s)); [|lia]. simpl. f_equal.
  unfold elems. rewrite take_take, take_drop_commute.
  do 2 f_equal. lia.
Qed.
End Slices.

Lemma buttonsOf_spec (labels : list string) :
  slice_ok (buttonsOf labels)
  ∧ len (buttonsOf labels) = length labels
  ∧ elems (buttonsOf labels) = button <$> labels.
Proof.
  destruct (foldl_append button labels nilSlice) as (Hok & Hlen & Hel).
  { unfold slice_ok. simpl. lia. }
  done.
Qed.

(** C7, as stated, fails at a response with four segments: the first row
    takes three candidates, the second the fourth, and the offer is
    sent. *)
Lemma sendTopics_four_segments :
  length (splitTopics "Nutrition,Sleep,Exercise,Hydration") = 4%nat
  ∧ sendTopics 7 (splitTopics "Nutrition,Sleep,Exercise,Hydration") InternalBot.New
    = Returns tt
        (mkBot ∅ false
           [TgSend (MessageConfig 7 "Choose a specific topic:"
                      (Some [[button "Nutrition"; button "Sleep"; button "Exercise"];
                             [button "Hydration"]]) "")]).
Proof. split; reflexivity. Qed.

Lemma splitTopics_nonempty (content : string) :
  (1 ≤ length (splitTopics content))%nat.
Proof.
  unfold splitTopics. destruct content as [|c rest]; simpl; [lia|].
  destruct (Ascii.eqb c ","); [simpl; lia|].
  destruct (Split rest); simpl; lia.
Qed.

Lemma sendTopics_outcome (b : Bot) (userID : Z) (topics : list string) :
  sendTopics userID topics b
  = if (length topics <? 3)%nat
    then Panics b
    else Returns tt
           (mkBot (states b) (mu b)
              (trace b ++ [TgSend (topicsMessage userID
                                     (button <$> take 3 topics)
                                     (button <$> drop 3 topics))])).
Proof.
  destruct (Nat.ltb_spec (length topics) 3) as [Hshort|Hlong].
  - destruct topics as [|t1 [|t2 [|t3 topics]]]; [reflexivity..|simpl in Hshort; lia].
  - destruct (buttonsOf_spec topics) as (Hok & Hlen & Hel).
    unfold sendTopics.
    rewrite (sliceExpr_window _ 0 3 Hok) by lia.
    rewrite (sliceExpr_window _ 3 _ Hok) by lia.
    rewrite Hel, Hlen, drop_0, <- fmap_take, <- fmap_take, <- fmap_drop.
    rewrite (take_ge topics (length topics)) by lia.
    reflexivity.
Qed.

(** C7, amended. The comma-split of a response always has at least one
    segment.  With fewer than 3 segments the first row expression
    [buttons[:3]] is out of range and the topic offer panics, sending
    nothing; with 3 segments or more (so also with 3 or 4) the offer is
    sent, its first row the first 3 candidates and its second row the
    remaining ones (none, for 3 segments). *)
Theorem sendTopics_layout (b : Bot) (userID : Z) (content : string) :
  (1 ≤ length (splitTopics content))%nat
  ∧ sendTopics userID (splitTopics content) b
    = if (length (splitTopics content) <? 3)%nat
      then Panics b
      else Returns tt
             (mkBot (states b) (mu b)
                (trace b ++ [TgSend (topicsMessage userID
                                       (button <$> take 3 (splitTopics content))
                                       (button <$> drop 3 (splitTopics content)))])).
Proof.
  split.
  - apply splitTopics_nonempty.
  - apply sendTopics_outcome.
Qed.

(** ** Audio delivery *)

Lemma acks_app (tr1 tr2 : list Call) : acks (tr1 ++ tr2) = (acks tr1 + acks tr2)%nat.
Proof. induction tr1 as [|c tr1 IH]; simpl; [done|]. rewrite IH. lia. Qed.

Lemma acks_errorCalls userID : acks (errorCalls userID) = 0%nat.
Proof. reflexivity. Qed.

Lemma acks_audioCalls ans userID text : acks (audioCalls ans userID text) = 0%nat.
Proof.
  unfold audioCalls, errorCalls. destruct (speech_answer ans) as [|[data|]]; [done| |done].
  by destruct (write_ok ans).
Qed.

Lemma generateAndSendAudio_known ans sts tr userID text st :
  sts !! userID = Some st →
  generateAndSendAudio ans userID text (mkBot sts false tr)
  = Returns tt
      (mkBot (if audioFails ans
              then <[userID := set_WaitingFor StateCategory st]> sts
              else sts)
         false (tr ++ audioCalls ans userID text)).
Proof.
  intros Hst. unfold generateAndSendAudio, audioFails, audioCalls, errorCalls.
  destruct (speech_answer ans) as [|[data|]].
  - go. rewrite (sendError_known _ _ _ st Hst), <- app_assoc. reflexivity.
  - destruct (write_ok ans); go.
    + rewrite <- !app_assoc. reflexivity.
    + rewrite (sendError_known _ _ _ st Hst). rewrite <- !app_assoc. reflexivity.
  - go. rewrite (sendError_known _ _ _ st Hst). rewrite <- !app_assoc. reflexivity.
Qed.

(** ** Topic selection, in both files *)

Ltac lookups :=
  repeat first
    [ rewrite lookup_insert_eq
    | rewrite insert_insert_eq
    | match goal with H : ?m !! ?k = Some _ |- context [?m !! ?k] => rewrite H end ].

Lemma InternalBot_beginTopicSelection sts tr userID topic st :
  sts !! userID = Some st →
  InternalBot.beginTopicSelection userID topic (mkBot sts false tr)
  = Returns (scriptPrompt topic (Category st))
      (mkBot (<[userID := set_Topic topic st]> sts) false tr).
Proof.
  intros Hst. unfold InternalBot.beginTopicSelection. binds.
  rewrite (getState_known _ _ _ st Hst). go. lookups. reflexivity.
Qed.

Lemma RootMain_beginTopicSelection sts tr userID topic st :
  sts !! userID = Some st →
  RootMain.beginTopicSelection userID topic (mkBot sts false tr)
  = Returns (scriptPrompt topic (Category st))
      (mkBot (<[userID := set_Topic topic st]> sts) false tr).
Proof.
  intros Hst. unfold RootMain.beginTopicSelection. go. lookups. reflexivity.
Qed.

Lemma topicSelection_rest ans sts tr userID topic st :
  sts !! userID = Some st →
  (resp <- CreateChatCompletion ans (scriptPrompt topic (Category st)) ;;
   match resp with
   | ChatError => sendError userID
   | ChatResponse Choices =>
       script <- firstChoice Choices ;;
       Lock ;;
       writeField userID (set_ScriptText script) ;;
       Unlock ;;
       generateAndSendAudio ans userID script
   end) (mkBot (<[userID := set_Topic topic st]> sts) false tr)
  = topicSelected ans userID topic st sts tr.
Proof.
  intros Hst. unfold topicSelected, CreateChatCompletion. binds.
  destruct (chat_answer ans) as [|[|script more]]; unfold firstChoice; go.
  - rewrite (sendError_known _ _ _ (set_Topic topic st)) by apply lookup_insert_eq.
    lookups. reflexivity.
  - reflexivity.
  - lookups.
    rewrite (generateAndSendAudio_known _ _ _ _ _ (set_ScriptText script (set_Topic topic st)))
      by apply lookup_insert_eq.
    destruct (audioFails ans); lookups; reflexivity.
Qed.

Lemma InternalBot_handleTopicSelection ans sts tr userID topic st :
  sts !! userID = Some st →
  InternalBot.handleTopicSelection ans userID topic (mkBot sts false tr)
  = topicSelected ans userID topic st sts tr.
Proof.
  intros Hst. unfold InternalBot.handleTopicSelection.
  unfold bind at 1. rewrite (InternalBot_beginTopicSelection _ _ _ _ st Hst).
  by apply topicSelection_rest.
Qed.

Lemma RootMain_handleTopicSelection ans sts tr userID topic st :
  sts !! userID = Some st →
  RootMain.handleTopicSelection ans userID topic (mkBot sts false tr)
  = topicSelected ans userID topic st sts tr.
Proof.
  intros Hst. unfold RootMain.handleTopicSelection.
  unfold bind at 1. rewrite (RootMain_beginTopicSelection _ _ _ _ st Hst).
  by apply topicSelection_rest.
Qed.

(** ** Category selection *)

(** In internal/bot/bot.go the handler takes the mutex and then calls
    [getState], which takes it again: it never gets past that point. *)
Lemma InternalBot_handleCategorySelection_blocks ans sts tr userID category :
  InternalBot.handleCategorySelection ans userID category (mkBot sts false tr)
  = Blocks (mkBot sts true tr).
Proof. reflexivity. Qed.

Lemma RootMain_handleCategorySelection ans sts tr userID category st :
  sts !! userID = Some st →
  RootMain.handleCategorySelection ans userID category (mkBot sts false tr)
  = categorySelected ans userID category st sts tr.
Proof.
  intros Hst. unfold RootMain.handleCategorySelection, categorySelected, CreateChatCompletion.
  go. lookups.
  destruct (chat_answer ans) as [|[|content more]]; unfold firstChoice; go.
  - rewrite (sendError_known _ _ _ (mkUserState category (Topic st) StateTopic (ScriptText st)))
      by apply lookup_insert_eq.
    lookups. reflexivity.
  - reflexivity.
  - rewrite <- app_assoc. reflexivity.
Qed.

(** ** Selection events *)

Lemma InternalBot_handleCallback ans query sts tr st :
  sts !! Message_Chat_ID query = Some st →
  InternalBot.handleCallback ans query (mkBot sts false tr)
  = thenAck (ID query)
      (if String.eqb (WaitingFor st) StateCategory then Blocks (mkBot sts true tr)
       else if String.eqb (WaitingFor st) StateTopic
            then topicSelected ans (Message_Chat_ID query) (Data query) st sts tr
            else Returns tt (mkBot sts false tr)).
Proof.
  intros Hst. unfold InternalBot.handleCallback. unfold bind at 1.
  rewrite (getState_known _ _ _ st Hst). unfold bind, thenAck.
  destruct (String.eqb (WaitingFor st) StateCategory).
  { by rewrite InternalBot_handleCategorySelection_blocks. }
  destruct (String.eqb (WaitingFor st) StateTopic); [|reflexivity].
  rewrite (InternalBot_handleTopicSelection _ _ _ _ _ st Hst).
  by destruct (topicSelected _ _ _ _ _ _).
Qed.

Lemma RootMain_handleCallback ans query sts tr st :
  sts !! Message_Chat_ID query = Some st →
  RootMain.handleCallback ans query (mkBot sts false tr)
  = thenAck (ID query)
      (if String.eqb (WaitingFor st) StateCategory
       then categorySelected ans (Message_Chat_ID query) (Data query) st sts tr
       else if String.eqb (WaitingFor st) StateTopic
            then topicSelected ans (Message_Chat_ID query) (Data query) st sts tr
            else Returns tt (mkBot sts false tr)).
Proof.
  intros Hst. unfold RootMain.handleCallback. go. rewrite Hst.
  unfold thenAck.
  destruct (String.eqb (WaitingFor st) StateCategory).
  { rewrite (RootMain_handleCategorySelection _ _ _ _ _ st Hst).
    by destruct (categorySelected _ _ _ _ _ _). }
  destruct (String.eqb (WaitingFor st) StateTopic); [|reflexivity].
  rewrite (RootMain_handleTopicSelection _ _ _ _ _ st Hst).
  by destruct (topicSelected _ _ _ _ _ _).
Qed.

Lemma RootMain_handleCallback_unknown ans query sts tr :
  sts !! Message_Chat_ID query = None →
  RootMain.handleCallback ans query (mkBot sts false tr) = Panics (mkBot sts false tr).
Proof. intros Hst. unfold RootMain.handleCallback. go. by rewrite Hst. Qed.

Lemma InternalBot_handleCallback_category ans query sts tr st :
  sts !! Message_Chat_ID query = Some st →
  WaitingFor st = StateCategory →
  InternalBot.handleCallback ans query (mkBot sts false tr) = Blocks (mkBot sts true tr).
Proof.
  intros Hst Hw. rewrite (InternalBot_handleCallback _ _ _ _ st Hst), Hw. reflexivity.
Qed.

(** C4 (a defect of internal/bot/bot.go). The claim: a selection event at
    phase Category records the label as category, moves to phase Topic and
    asks the text service once for topic suggestions.  The code: at phase
    Category the handler never returns; it blocks on the mutex it already
    holds, with the session and the trace as they were, so no category is
    recorded, the phase stays Category and no call is made. *)
Theorem category_selection_blocks (b : Bot) (ans : Answers) (query : CallbackQuery)
    (st : UserState) :
  mu b = false →
  states b !! Message_Chat_ID query = Some st →
  WaitingFor st = StateCategory →
  InternalBot.handleCallback ans query b = Blocks (mkBot (states b) true (trace b)).
Proof.
  destruct b as [sts m tr]; simpl. intros -> Hst Hw.
  by apply (InternalBot_handleCallback_category _ _ _ _ st).
Qed.

Lemma category_selection_blocks_witness :
  InternalBot.handleCallback (answering "Nutrition,Sleep,Exercise,Mental Health,Hydration")
    (pressed "Health") offered
  = Blocks (mkBot {[7 := mkUserState "" "" StateCategory ""]} true
              [TgSend (categoriesMessage 7)]).
Proof.
  apply (category_selection_blocks offered _ (pressed "Health")
           (mkUserState "" "" StateCategory "")); reflexivity.
Defined.

(** C2 (the defect of C4 in internal/bot/bot.go). The claim: every
    selection event is acknowledged exactly once.  The code: for a session
    at phase Category the handler blocks and no acknowledgment is sent;
    for a session at any other phase, whenever the handler returns it has
    sent exactly one. *)
Theorem acknowledgment_of_selection (b : Bot) (ans : Answers) (query : CallbackQuery)
    (st : UserState) :
  mu b = false →
  states b !! Message_Chat_ID query = Some st →
  (WaitingFor st = StateCategory →
     ∃ b', InternalBot.handleCallback ans query b = Blocks b'
         ∧ acks (trace b') = acks (trace b))
  ∧ (WaitingFor st ≠ StateCategory →
     ∀ b', InternalBot.handleCallback ans query b = Returns tt b' →
           acks (trace b') = S (acks (trace b))).
Proof.
  destruct b as [sts m tr]; simpl. intros -> Hst. split.
  - intros Hw. rewrite (InternalBot_handleCallback_category _ _ _ _ st Hst Hw).
    by eexists.
  - intros Hw b'. rewrite (InternalBot_handleCallback _ _ _ _ st Hst).
    apply String.eqb_neq in Hw. rewrite Hw.
    destruct (String.eqb (WaitingFor st) StateTopic).
    + unfold topicSelected, thenAck.
      destruct (chat_answer ans) as [|[|script more]]; [|done|];
        intros [= <-]; cbn [trace];
        rewrite !acks_app, ?acks_audioCalls, ?acks_errorCalls;
        cbn [acks isAck]; lia.
    + intros [= <-]. cbn [trace]. rewrite acks_app. cbn [acks isAck]. lia.
Qed.

Lemma acknowledgment_of_selection_witness :
  (∃ b', InternalBot.handleCallback (answering "a,b,c,d,e") (pressed "Health") offered
         = Blocks b'
       ∧ acks (trace b') = 0%nat)
  ∧ (∀ b', InternalBot.handleCallback (answering "A script.") (pressed "Sleep") choosing
           = Returns tt b' →
           acks (trace b') = 1%nat).
Proof.
  split.
  - apply (acknowledgment_of_selection offered _ (pressed "Health")
             (mkUserState "" "" StateCategory "")); reflexivity.
  - apply (acknowledgment_of_selection choosing _ (pressed "Sleep")
             (mkUserState "Health" "" StateTopic "")); [reflexivity..|discriminate].
Defined.

(** ** What main.go does at phase Category *)

Lemma topicsPrompt_Health :
  topicsPrompt "Health"
  = "Generate 5 podcast topics about Health. Return as comma-separated list.".
Proof. reflexivity. Qed.

(** In main.go a category selection records the label, moves to phase
    Topic and asks once for suggestions, with the prompt built from the
    label; with a response of at least 3 segments the topics are offered
    and the phase is still Topic. *)
Lemma RootMain_category_selection_succeeds ans query sts tr st content more :
  sts !! Message_Chat_ID query = Some st →
  WaitingFor st = StateCategory →
  chat_answer ans = ChatResponse (content :: more) →
  (3 ≤ length (splitTopics content))%nat →
  RootMain.handleCallback ans query (mkBot sts false tr)
  = Returns tt
      (mkBot (<[Message_Chat_ID query :=
                  mkUserState (Data query) (Topic st) StateTopic (ScriptText st)]> sts)
         false
         (tr ++ [AiCreateChatCompletion GPT4o (topicsPrompt (Data query));
                 FmtPrintln content;
                 TgSend (topicsMessage (Message_Chat_ID query)
                           (button <$> take 3 (splitTopics content))
                           (button <$> drop 3 (splitTopics content)));
                 TgSend (CallbackConfig (ID query) "")])).
Proof.
  intros Hst Hw Hans Hlen.
  rewrite (RootMain_handleCallback _ _ _ _ st Hst), Hw. eqb_lit.
  unfold categorySelected. rewrite Hans.
  rewrite sendTopics_outcome.
  destruct (Nat.ltb_spec (length (splitTopics content)) 3); [lia|].
  cbn [String.eqb thenAck states mu trace]. rewrite <- !app_assoc. reflexivity.
Qed.


(** In main.go a selection event whose handler returns has been
    acknowledged exactly once. *)
Lemma RootMain_acknowledges ans query sts tr b' :
  RootMain.handleCallback ans query (mkBot sts false tr) = Returns tt b' →
  acks (trace b') = S (acks tr).
Proof.
  destruct (sts !! Message_Chat_ID query) as [st|] eqn:Hst.
  2: { by rewrite RootMain_handleCallback_unknown. }
  rewrite (RootMain_handleCallback _ _ _ _ st Hst).
  destruct (String.eqb (WaitingFor st) StateCategory).
  { unfold categorySelected, thenAck.
    destruct (chat_answer ans) as [|[|content more]]; [|done|].
    - intros [= <-]. cbn [trace].
      rewrite !acks_app, acks_errorCalls. cbn [acks isAck]. lia.
    - rewrite sendTopics_outcome.
      destruct (_ <? _)%nat; [done|].
      intros [= <-]. cbn [trace]. rewrite !acks_app.
      unfold topicsMessage. cbn [acks isAck]. lia. }
  destruct (String.eqb (WaitingFor st) StateTopic).
  - unfold topicSelected, thenAck.
    destruct (chat_answer ans) as [|[|script more]]; [|done|];
      intros [= <-]; cbn [trace];
      rewrite !acks_app, ?acks_audioCalls, ?acks_errorCalls;
      cbn [acks isAck]; lia.
  - intros [= <-]. cbn [trace]. rewrite acks_app. cbn [acks isAck]. lia.
Qed.

(** ** C1: a failed suggestion call *)

(** [suggestTopics] is the tail of the handler of internal/bot/bot.go. *)
Lemma InternalBot_handleCategorySelection_tail ans userID category :
  InternalBot.handleCategorySelection ans userID category
  = (Lock ;;
     _ <- InternalBot.getState userID ;;
     writeField userID (set_Category category) ;;
     writeField userID (set_WaitingFor StateTopic) ;;
     Unlock ;;
     suggestTopics ans userID category).
Proof. reflexivity. Qed.




(** ** C6: a failed generation at phase Topic *)

(** C6, as stated, fails: after a failed script call, and after a failed
    speech call, the stored phase is Category, not Topic.  The same
    happens in a run of main.go that gets to phase Topic through [/new]
    and a category selection. *)
Lemma failed_generation_sets_phase_category :
  (∃ tr,
     RootMain.main true
       [(typed 7 "/new", failing);
        (selected 7 "Health", answering "Nutrition,Sleep,Exercise,Mental Health,Hydration");
        (selected 7 "Sleep", failing)]
       RootMain.initial
     = Returns tt (mkBot {[7 := mkUserState "Health" "Sleep" StateCategory ""]} false tr))
  ∧ InternalBot.handleCallback failing (pressed "Sleep") choosing
  = Returns tt
      (mkBot {[7 := mkUserState "Health" "Sleep" StateCategory ""]} false
         [AiCreateChatCompletion GPT4o (scriptPrompt "Sleep" "Health");
          TgSend (errorMessage 7); TgSend (categoriesMessage 7);
          TgSend (CallbackConfig "q1" "")])
  ∧ InternalBot.handleCallback (speechless "A script.") (pressed "Sleep") choosing
    = Returns tt
        (mkBot {[7 := mkUserState "Health" "Sleep" StateCategory "A script."]} false
           [AiCreateChatCompletion GPT4o (scriptPrompt "Sleep" "Health");
            AiCreateSpeech TTSModel1 "A script." VoiceAlloy;
            TgSend (errorMessage 7); TgSend (categoriesMessage 7);
            TgSend (CallbackConfig "q1" "")])
  ∧ StateCategory ≠ StateTopic.
Proof.
  split; [eexists; vm_compute; reflexivity|].
  split; [reflexivity|]. split; [reflexivity|discriminate].
Qed.

(** C6, amended. When the script call or the speech call made while
    handling a selection event at phase Topic fails, the handler (of
    either file) returns having sent the error notice, then the category
    menu, then the acknowledgment, and the stored phase is Category;
    category is as it was and topic is the selected label. *)
Theorem failed_generation_resets_phase (b : Bot) (ans : Answers) (query : CallbackQuery)
    (st : UserState) :
  mu b = false →
  states b !! Message_Chat_ID query = Some st →
  WaitingFor st = StateTopic →
  (chat_answer ans = ChatError
   ∨ ∃ script more, chat_answer ans = ChatResponse (script :: more)
                    ∧ speech_answer ans = SpeechError) →
  ∃ b' made st',
    InternalBot.handleCallback ans query b = Returns tt b'
    ∧ RootMain.handleCallback ans query b = Returns tt b'
    ∧ trace b' = trace b ++ made
                 ++ [TgSend (errorMessage (Message_Chat_ID query));
                     TgSend (categoriesMessage (Message_Chat_ID query));
                     TgSend (CallbackConfig (ID query) "")]
    ∧ (made = [AiCreateChatCompletion GPT4o (scriptPrompt (Data query) (Category st))]
       ∨ ∃ script,
           made = [AiCreateChatCompletion GPT4o (scriptPrompt (Data query) (Category st));
                   AiCreateSpeech TTSModel1 script VoiceAlloy])
    ∧ states b' !! Message_Chat_ID query = Some st'
    ∧ WaitingFor st' = StateCategory
    ∧ Category st' = Category st
    ∧ Topic st' = Data query.
Proof.
  destruct b as [sts m tr]; simpl. intros -> Hst Hw Hfail.
  rewrite (InternalBot_handleCallback _ _ _ _ st Hst),
    (RootMain_handleCallback _ _ _ _ st Hst), Hw. eqb_lit.
  unfold topicSelected.
  destruct Hfail as [Hchat|(script & more & Hchat & Hspeech)]; rewrite Hchat.
  - eexists _, [AiCreateChatCompletion GPT4o (scriptPrompt (Data query) (Category st))], _.
    split; [reflexivity|]. split; [reflexivity|].
    cbn [states mu trace thenAck errorCalls].
    split; [by rewrite <- !app_assoc|]. split; [by left|].
    split; [apply lookup_insert_eq|]. done.
  - unfold audioFails, audioCalls. rewrite Hspeech.
    eexists _, [AiCreateChatCompletion GPT4o (scriptPrompt (Data query) (Category st));
                AiCreateSpeech TTSModel1 script VoiceAlloy], _.
    split; [reflexivity|]. split; [reflexivity|].
    cbn [states mu trace thenAck errorCalls].
    split; [by rewrite <- !app_assoc|]. split; [right; by eexists|].
    split; [apply lookup_insert_eq|]. done.
Qed.

Lemma failed_generation_resets_phase_witness :
  ∃ b' st',
    InternalBot.handleCallback failing (pressed "Sleep") choosing = Returns tt b'
    ∧ states b' !! 7 = Some st'
    ∧ WaitingFor st' = StateCategory.
Proof.
  destruct (failed_generation_resets_phase choosing failing (pressed "Sleep")
              (mkUserState "Health" "" StateTopic ""))
    as (b' & made & st' & Hrun & _ & _ & _ & Hst & Hw & _).
  { reflexivity. }
  { reflexivity. }
  { reflexivity. }
  { left. reflexivity. }
  exists b', st'. repeat split; assumption.
Defined.

(** ** Text messages, in both files *)

Lemma InternalBot_handleMessage msg sts tr :
  InternalBot.handleMessage msg (mkBot sts false tr) = messageHandled msg sts tr.
Proof.
  destruct msg as [userID text].
  unfold InternalBot.handleMessage, messageHandled. binds. rewrite getState_free.
  destruct (String.eqb text "/new").
  { binds. rewrite resetState_free.
    rewrite (sendCategories_known _ _ _ freshUserState) by apply lookup_insert_eq.
    by rewrite insert_insert_eq. }
  destruct (String.eqb text "/text").
  { by rewrite handleTextRequest_free, ensured_idem, session_ensured. }
  destruct (String.eqb (WaitingFor (session userID sts)) StateInitial); [|done].
  by rewrite (sendCategories_known _ _ _ (session userID sts)) by apply ensured_lookup.
Qed.

Lemma RootMain_handleTextRequest sts tr userID st :
  sts !! userID = Some st →
  RootMain.handleTextRequest userID (mkBot sts false tr)
  = Returns tt
      (mkBot sts false
         (tr ++ [TgSend (if String.eqb (ScriptText st) ""
                         then noScriptMessage userID
                         else MessageConfig userID (textReply (ScriptText st))
                                None ModeMarkdown)])).
Proof.
  intros Hst. unfold RootMain.handleTextRequest. go. rewrite Hst.
  by destruct (String.eqb (ScriptText st) "").
Qed.

Lemma RootMain_handleMessage msg sts tr :
  RootMain.handleMessage msg (mkBot sts false tr) = messageHandled msg sts tr.
Proof.
  destruct msg as [userID text].
  unfold RootMain.handleMessage, messageHandled, session, ensured. go.
  cbn [Chat_ID msg_Text].
  destruct (sts !! userID) as [st|] eqn:Hst; lookups;
    cbv beta iota delta [from_option id].
  - destruct (String.eqb text "/new").
    { rewrite (sendCategories_known _ _ _ freshUserState) by apply lookup_insert_eq.
      by rewrite insert_insert_eq. }
    destruct (String.eqb text "/text").
    { by rewrite (RootMain_handleTextRequest _ _ _ st). }
    destruct (String.eqb (WaitingFor st) StateInitial); [|done].
    by rewrite (sendCategories_known _ _ _ st).
  - destruct (String.eqb text "/new").
    { rewrite (sendCategories_known _ _ _ freshUserState) by apply lookup_insert_eq.
      by rewrite !insert_insert_eq. }
    destruct (String.eqb text "/text").
    { by rewrite (RootMain_handleTextRequest _ _ _ freshUserState)
        by apply lookup_insert_eq. }
    eqb_lit.
    rewrite (sendCategories_known _ _ _ freshUserState) by apply lookup_insert_eq.
    by rewrite !insert_insert_eq.
Qed.

(** The two files handle a text message in the same way. *)
Lemma handleMessage_agree msg sts tr :
  RootMain.handleMessage msg (mkBot sts false tr)
  = InternalBot.handleMessage msg (mkBot sts false tr).
Proof. by rewrite RootMain_handleMessage, InternalBot_handleMessage. Qed.

(** They handle a selection event in the same way too, unless the session
    is at phase Category. *)
Lemma handleCallback_agree ans query sts tr st :
  sts !! Message_Chat_ID query = Some st →
  WaitingFor st ≠ StateCategory →
  RootMain.handleCallback ans query (mkBot sts false tr)
  = InternalBot.handleCallback ans query (mkBot sts false tr).
Proof.
  intros Hst Hw%String.eqb_neq.
  by rewrite (RootMain_handleCallback _ _ _ _ st Hst),
       (InternalBot_handleCallback _ _ _ _ st Hst), Hw.
Qed.

(** ** Invariants of the session store *)

Section AllSessions.
Variable Q : UserState → Prop.

Lemma all_sessions_insert sts u st :
  all_sessions Q sts → Q st → all_sessions Q (<[u := st]> sts).
Proof.
  intros Hall Hst u' st'. destruct (decide (u = u')) as [<-|Hne].
  - rewrite lookup_insert_eq. by intros [= <-].
  - rewrite lookup_insert_ne by done. apply Hall.
Qed.

Lemma all_sessions_ensured sts u :
  all_sessions Q sts → Q freshUserState → all_sessions Q (ensured u sts).
Proof.
  intros Hall Hfresh. unfold ensured. destruct (sts !! u); [done|].
  by apply all_sessions_insert.
Qed.

Lemma all_sessions_session sts u :
  all_sessions Q sts → Q freshUserState → Q (session u sts).
Proof.
  intros Hall Hfresh. unfold session.
  destruct (sts !! u) as [st|] eqn:Hst; simpl; [by apply (Hall u)|done].
Qed.

Hypothesis Q_fresh : Q freshUserState.
Hypothesis Q_offered : Q (mkUserState "" "" StateCategory "").
Hypothesis Q_offer : ∀ st, Q st → Q (set_WaitingFor StateCategory st).

Lemma messageHandled_keeps msg sts tr b' :
  all_sessions Q sts →
  messageHandled msg sts tr = Returns tt b' →
  all_sessions Q (states b') ∧ mu b' = false.
Proof.
  intros Hall. unfold messageHandled.
  pose proof (all_sessions_ensured sts (Chat_ID msg) Hall Q_fresh) as Hens.
  pose proof (all_sessions_session sts (Chat_ID msg) Hall Q_fresh) as Hses.
  destruct (String.eqb (msg_Text msg) "/new").
  { intros [= <-]. split; [|done]. by apply all_sessions_insert. }
  destruct (String.eqb (msg_Text msg) "/text").
  { by intros [= <-]. }
  destruct (String.eqb (WaitingFor _) StateInitial).
  { intros [= <-]. split; [|done]. apply all_sessions_insert; [done|]. by apply Q_offer. }
  by intros [= <-].
Qed.
End AllSessions.

Lemma topicSelected_keeps ans userID topic st sts tr b' :
  all_sessions topic_has_category sts →
  topic_has_category st →
  topicSelected ans userID topic st sts tr = Returns tt b' →
  all_sessions topic_has_category (states b') ∧ mu b' = false.
Proof.
  intros Hall Hst. unfold topicSelected.
  destruct (chat_answer ans) as [|[|script more]]; [|done|];
    intros [= <-]; (split; [|done]); cbn [states];
    apply all_sessions_insert; try done.
  unfold topic_has_category in *. cbn [WaitingFor Category].
  destruct (audioFails ans); [done|exact Hst].
Qed.

Lemma thenAck_returns queryID o b' :
  thenAck queryID o = Returns tt b' →
  ∃ b, o = Returns tt b ∧ states b' = states b ∧ mu b' = mu b.
Proof. destruct o as [[] b| |]; [|done..]. intros [= <-]. by exists b. Qed.

Lemma RootMain_handleCallback_keeps ans query sts tr b' :
  Data query ≠ "" →
  all_sessions topic_has_category sts →
  RootMain.handleCallback ans query (mkBot sts false tr) = Returns tt b' →
  all_sessions topic_has_category (states b') ∧ mu b' = false.
Proof.
  intros Hdata Hall.
  destruct (sts !! Message_Chat_ID query) as [st|] eqn:Hst.
  2: { by rewrite RootMain_handleCallback_unknown. }
  rewrite (RootMain_handleCallback _ _ _ _ st Hst).
  intros (b & Hrun & -> & ->)%thenAck_returns. revert Hrun.
  destruct (String.eqb (WaitingFor st) StateCategory).
  { unfold categorySelected.
    destruct (chat_answer ans) as [|[|content more]]; [|done|].
    - intros [= <-]. split; [|done]. by apply all_sessions_insert.
    - rewrite sendTopics_outcome.
      destruct (_ <? _)%nat; [done|]. intros [= <-]. split; [|done].
      cbn [states]. apply all_sessions_insert; [done|]. by intros _. }
  destruct (String.eqb (WaitingFor st) StateTopic).
  - apply topicSelected_keeps; [done|]. by apply (Hall (Message_Chat_ID query)).
  - by intros [= <-].
Qed.

Lemma InternalBot_handleCallback_free ans query sts tr :
  InternalBot.handleCallback ans query (mkBot sts false tr)
  = InternalBot.handleCallback ans query
      (mkBot (ensured (Message_Chat_ID query) sts) false tr).
Proof.
  unfold InternalBot.handleCallback. unfold bind at 1 3.
  by rewrite !getState_free, ensured_idem, session_ensured.
Qed.

Lemma InternalBot_handleCallback_keeps ans query sts tr b' :
  all_sessions before_selection sts →
  InternalBot.handleCallback ans query (mkBot sts false tr) = Returns tt b' →
  all_sessions before_selection (states b') ∧ mu b' = false.
Proof.
  intros Hall. rewrite InternalBot_handleCallback_free.
  assert (all_sessions before_selection (ensured (Message_Chat_ID query) sts)) as Hens.
  { apply all_sessions_ensured; [done|by left]. }
  rewrite (InternalBot_handleCallback _ _ _ _ _ (ensured_lookup _ _)).
  intros (b & Hrun & -> & ->)%thenAck_returns. revert Hrun.
  destruct (Hens _ _ (ensured_lookup (Message_Chat_ID query) sts)) as [-> | ->];
    eqb_lit; [|done].
  by intros [= <-].
Qed.

Lemma RootMain_reachable_keeps b :
  reachable RootMain.handleUpdate nonempty_label b →
  mu b = false ∧ all_sessions topic_has_category (states b).
Proof.
  induction 1 as [b Hempty Hmu|b ans update b' _ [Hmu Hall] Hok Hrun].
  { split; [done|]. rewrite Hempty. intros u st. by rewrite lookup_empty. }
  destruct b as [sts m tr]; simpl in *; subst m.
  unfold RootMain.handleUpdate, nonempty_label, labelled in *.
  destruct (upd_Message update) as [msg|].
  - rewrite RootMain_handleMessage in Hrun.
    apply (messageHandled_keeps topic_has_category) in Hrun as [? ?]; try done.
  - destruct (upd_CallbackQuery update) as [query|].
    + by apply RootMain_handleCallback_keeps in Hrun as [? ?].
    + by injection Hrun as <-.
Qed.

Lemma InternalBot_reachable_keeps allowed b :
  reachable InternalBot.handleUpdate allowed b →
  mu b = false ∧ all_sessions before_selection (states b).
Proof.
  induction 1 as [b Hempty Hmu|b ans update b' _ [Hmu Hall] Hok Hrun].
  { split; [done|]. rewrite Hempty. intros u st. by rewrite lookup_empty. }
  destruct b as [sts m tr]; simpl in *; subst m.
  unfold InternalBot.handleUpdate in *.
  destruct (upd_Message update) as [msg|].
  - rewrite InternalBot_handleMessage in Hrun.
    apply (messageHandled_keeps before_selection) in Hrun as [? ?]; try done.
    + by left.
    + by right.
    + intros st [-> | ->]; by right.
  - destruct (upd_CallbackQuery update) as [query|].
    + by apply InternalBot_handleCallback_keeps in Hrun as [? ?].
    + by injection Hrun as <-.
Qed.

(** In internal/bot/bot.go no session ever gets to phase Topic, and none
    ever holds a category: the handler that would record them blocks. *)
Lemma InternalBot_never_reaches_topic allowed b u st :
  reachable InternalBot.handleUpdate allowed b →
  states b !! u = Some st →
  WaitingFor st ≠ StateTopic ∧ Category st = "" ∧ Topic st = "" ∧ ScriptText st = "".
Proof.
  intros [_ Hall]%InternalBot_reachable_keeps Hst.
  by destruct (Hall u st Hst) as [-> | ->].
Qed.

(** ** C8: what a session at phase Topic holds *)

Lemma RootMain_serve_reachable allowed updates b b' :
  reachable RootMain.handleUpdate allowed b →
  Forall (λ ua, allowed ua.1) updates →
  RootMain.serve updates b = Returns tt b' →
  reachable RootMain.handleUpdate allowed b'.
Proof.
  intros Hb Hok. revert b Hb.
  induction Hok as [|[update ans] updates Hu _ IH]; intros b Hb; simpl.
  { by intros [= <-]. }
  unfold bind. destruct (RootMain.handleUpdate ans update b) as [[] b1| |] eqn:Hrun; [|done..].
  apply IH. by apply (reachable_step _ _ b ans update).
Qed.

Lemma InternalBot_serve_reachable allowed updates b b' :
  reachable InternalBot.handleUpdate allowed b →
  Forall (λ ua, allowed ua.1) updates →
  InternalBot.serve updates b = Returns tt b' →
  reachable InternalBot.handleUpdate allowed b'.
Proof.
  intros Hb Hok. revert b Hb.
  induction Hok as [|[update ans] updates Hu _ IH]; intros b Hb; simpl.
  { by intros [= <-]. }
  unfold bind.
  destruct (InternalBot.handleUpdate ans update b) as [[] b1| |] eqn:Hrun; [|done..].
  apply IH. by apply (reachable_step _ _ b ans update).
Qed.

Lemma RootMain_main_reachable allowed commands_ok updates b :
  Forall (λ ua, allowed ua.1) updates →
  RootMain.main commands_ok updates RootMain.initial = Returns tt b →
  reachable RootMain.handleUpdate allowed b.
Proof.
  intros Hok. unfold RootMain.main. go.
  destruct commands_ok; apply RootMain_serve_reachable; try done;
    by apply reachable_start.
Qed.

Lemma InternalBot_Run_reachable allowed updates b :
  Forall (λ ua, allowed ua.1) updates →
  InternalBot.Run true updates InternalBot.New = Returns true b →
  reachable InternalBot.handleUpdate allowed b.
Proof.
  intros Hok. unfold InternalBot.Run. go.
  destruct (InternalBot.serve _ _) as [[] b1| |] eqn:Hrun; [|done..].
  intros [= <-]. revert Hrun. apply InternalBot_serve_reachable; [|done].
  by apply reachable_start.
Qed.

(** C8, as stated, fails in main.go at the empty label: after [/new], a
    selection event with the empty label leaves the session at phase Topic
    with an empty category; a second one makes the script call with an
    empty topic. *)
Lemma empty_label_reaches_topic :
  ∃ tr b,
    RootMain.main true
      [(typed 7 "/new", failing); (selected 7 "", answering "a,b,c,d,e")]
      RootMain.initial = Returns tt b
    ∧ b = mkBot {[7 := mkUserState "" "" StateTopic ""]} false tr
    ∧ reachable RootMain.handleUpdate any_label b
    ∧ RootMain.beginTopicSelection 7 "" b
      = Returns (scriptPrompt "" "") (mkBot {[7 := mkUserState "" "" StateTopic ""]} false tr)
    ∧ RootMain.handleUpdate failing (selected 7 "") b
      = Returns tt
          (mkBot {[7 := mkUserState "" "" StateCategory ""]} false
             (tr ++ [AiCreateChatCompletion GPT4o (scriptPrompt "" "");
                     TgSend (errorMessage 7); TgSend (categoriesMessage 7);
                     TgSend (CallbackConfig "q1" "")])).
Proof.
  eexists _, _. split; [vm_compute; reflexivity|]. split; [reflexivity|].
  split; [|split; vm_compute; reflexivity].
  eapply (RootMain_main_reachable any_label true
            [(typed 7 "/new", failing); (selected 7 "", answering "a,b,c,d,e")]).
  - repeat constructor.
  - vm_compute. reflexivity.
Qed.

(** C8, amended. In every state reached (in main.go or in
    internal/bot/bot.go) by handling updates whose selection labels are
    all non-empty, a session at phase Topic has a non-empty category; and
    when such a session receives a selection with a non-empty label, the
    state in which the script call is made has that label as its topic
    (so a non-empty one) and the prompt is built from it and the
    category. *)
Theorem topic_phase_has_category (b : Bot) :
  reachable RootMain.handleUpdate nonempty_label b
  ∨ reachable InternalBot.handleUpdate nonempty_label b →
  (∀ u st, states b !! u = Some st → WaitingFor st = StateTopic → Category st ≠ "")
  ∧ (∀ u st topic,
       states b !! u = Some st → WaitingFor st = StateTopic → topic ≠ "" →
       ∃ asked st1,
         RootMain.beginTopicSelection u topic b
         = Returns (scriptPrompt topic (Category st)) asked
         ∧ InternalBot.beginTopicSelection u topic b
           = Returns (scriptPrompt topic (Category st)) asked
         ∧ states asked !! u = Some st1
         ∧ Topic st1 = topic ∧ Topic st1 ≠ "" ∧ Category st1 ≠ "").
Proof.
  intros Hreach.
  assert (mu b = false ∧ all_sessions topic_has_category (states b)) as [Hmu Hall].
  { destruct Hreach as [Hr|Hr].
    - by apply RootMain_reachable_keeps.
    - apply InternalBot_reachable_keeps in Hr as [Hmu Hall]. split; [done|].
      intros u st Hst. by destruct (Hall u st Hst) as [-> | ->]. }
  destruct b as [sts m tr]; simpl in *; subst m.
  split; [exact Hall|].
  intros u st topic Hst Hw Htopic.
  exists (mkBot (<[u := set_Topic topic st]> sts) false tr), (set_Topic topic st).
  split; [by apply RootMain_beginTopicSelection|].
  split; [by apply InternalBot_beginTopicSelection|].
  split; [apply lookup_insert_eq|].
  split; [done|]. split; [done|]. by apply (Hall u st).
Qed.

Lemma topic_phase_has_category_witness :
  ∃ tr,
    RootMain.main true
      [(typed 7 "/new", failing); (selected 7 "Health", answering "a,b,c,d,e")]
      RootMain.initial
    = Returns tt (mkBot {[7 := mkUserState "Health" "" StateTopic ""]} false tr)
    ∧ Category (mkUserState "Health" "" StateTopic "") ≠ ""
    ∧ ∃ asked st1,
        RootMain.beginTopicSelection 7 "Sleep"
          (mkBot {[7 := mkUserState "Health" "" StateTopic ""]} false tr)
        = Returns (scriptPrompt "Sleep" "Health") asked
        ∧ states asked !! 7 = Some st1
        ∧ Topic st1 ≠ "".
Proof.
  eexists. split; [vm_compute; reflexivity|].
  match goal with |- Category ?st ≠ "" ∧ (∃ asked st1, _ 7 _ ?b = _ ∧ _) =>
    assert (reachable RootMain.handleUpdate nonempty_label b) as Hreach
  end.
  { eapply (RootMain_main_reachable nonempty_label true
              [(typed 7 "/new", failing); (selected 7 "Health", answering "a,b,c,d,e")]).
    - repeat constructor. simpl. discriminate.
    - vm_compute. reflexivity. }
  destruct (topic_phase_has_category _ (or_introl Hreach)) as [Hcat Hcall].
  split.
  { apply (Hcat 7); reflexivity. }
  destruct (Hcall 7 (mkUserState "Health" "" StateTopic "") "Sleep")
    as (asked & st1 & Hrun & _ & Hst1 & _ & Hne & _).
  { reflexivity. }
  { reflexivity. }
  { discriminate. }
  exists asked, st1. repeat split; assumption.
Defined.


(** * Further properties of the code *)

(** ** Splitting the suggestions *)

Lemma Split_cons (input : string) : ∃ piece pieces, Split input = piece :: pieces.
Proof.
  destruct input as [|c rest]; simpl; [by eexists _, _|].
  destruct (Ascii.eqb c ","); [by eexists _, _|].
  destruct (Split rest); by eexists _, _.
Qed.

Lemma concat_cons (piece : string) (pieces : list string) p ps :
  pieces = p :: ps →
  String.concat "," (piece :: pieces) = piece +:+ "," +:+ String.concat "," pieces.
Proof. by intros ->. Qed.

(** X1. Joining the pieces of [splitTopics] with commas gives the input
    back: the split loses nothing and adds nothing. *)
Theorem splitTopics_join (input : string) :
  String.concat "," (splitTopics input) = input.
Proof.
  unfold splitTopics. induction input as [|c rest IH]; [reflexivity|].
  simpl. destruct (Split_cons rest) as (piece & pieces & Hrest).
  destruct (Ascii.eqb_spec c ",") as [->|Hc].
  - rewrite (concat_cons _ _ _ _ Hrest), IH. reflexivity.
  - rewrite Hrest in *. destruct pieces as [|p ps].
    + simpl in *. by rewrite IH.
    + rewrite (concat_cons _ _ p ps eq_refl).
      rewrite (concat_cons _ _ p ps eq_refl) in IH.
      rewrite <- IH. reflexivity.
Qed.

(** X2. No piece of [splitTopics] holds a comma, and there is exactly one
    more piece than the input has commas (so one piece, the input itself,
    when it has none, and one empty piece for the empty input). *)
Theorem splitTopics_pieces (input : string) :
  Forall commaFree (splitTopics input)
  ∧ length (splitTopics input) = S (countCommas input).
Proof.
  unfold splitTopics, commaFree. induction input as [|c rest [IHfree IHlen]].
  { split; [by repeat constructor|reflexivity]. }
  simpl. destruct (Ascii.eqb c ",") eqn:Hc.
  - split; [by constructor|]. simpl. by rewrite IHlen.
  - destruct (Split rest) as [|piece pieces]; [simpl in IHlen; lia|].
    inversion IHfree as [|? ? Hpiece Hpieces]; subst.
    split; [|exact IHlen].
    constructor; [|done]. simpl. by rewrite Hc.
Qed.

Lemma Split_commaFree_app (piece rest : string) :
  commaFree piece →
  Split (piece +:+ "," +:+ rest) = piece :: Split rest.
Proof.
  unfold commaFree. induction piece as [|c piece IH]; intros Hfree; [reflexivity|].
  simpl in Hfree. change (String c piece +:+ "," +:+ rest)
    with (String c (piece +:+ "," +:+ rest)).
  simpl. destruct (Ascii.eqb c ","); [simpl in Hfree; lia|].
  by rewrite IH.
Qed.

Lemma Split_commaFree (piece : string) : commaFree piece → Split piece = [piece].
Proof.
  unfold commaFree. induction piece as [|c piece IH]; intros Hfree; [reflexivity|].
  simpl in *. destruct (Ascii.eqb c ","); [lia|]. by rewrite IH.
Qed.

(** X3. Splitting is the inverse of joining: for a non-empty list of
    comma-free labels, [splitTopics] of the labels joined with commas is
    that list (so a response of five clean labels comes back as those
    five). *)
Theorem splitTopics_of_joined (labels : list string) :
  labels ≠ [] →
  Forall commaFree labels →
  splitTopics (String.concat "," labels) = labels.
Proof.
  unfold splitTopics. intros Hne Hfree.
  induction Hfree as [|l labels Hl Hfree IH]; [done|].
  destruct labels as [|l' labels].
  - simpl. by apply Split_commaFree.
  - rewrite (concat_cons _ _ l' labels eq_refl).
    rewrite (Split_commaFree_app _ _ Hl). by rewrite IH.
Qed.

Lemma splitTopics_of_joined_witness :
  splitTopics "Nutrition,Sleep,Exercise,Mental Health,Hydration"
  = ["Nutrition"; "Sleep"; "Exercise"; "Mental Health"; "Hydration"].
Proof.
  apply (splitTopics_of_joined
           ["Nutrition"; "Sleep"; "Exercise"; "Mental Health"; "Hydration"]).
  - discriminate.
  - repeat constructor.
Defined.

(** ** What a handler can do to the store *)

Lemma touches_only_refl u sts : touches_only u sts sts.
Proof. by left. Qed.

Lemma touches_only_insert u sts sts' st :
  touches_only u sts sts' → touches_only u sts (<[u := st]> sts').
Proof.
  intros [-> | [st0 ->]]; right; exists st; [done|]. by rewrite insert_insert_eq.
Qed.

Lemma touches_only_ensured u sts : touches_only u sts (ensured u sts).
Proof. unfold ensured. destruct (sts !! u); [by left|right; by eexists]. Qed.

Lemma touches_only_frame u u' sts sts' :
  touches_only u sts sts' → u' ≠ u → sts' !! u' = sts !! u'.
Proof. intros [-> | [st ->]] Hne; [done|]. by rewrite lookup_insert_ne. Qed.

Lemma touches_only_keeps u u' sts sts' :
  touches_only u sts sts' → is_Some (sts !! u') → is_Some (sts' !! u').
Proof.
  intros [-> | [st ->]] Hsome; [done|].
  destruct (decide (u = u')) as [<-|Hne].
  - rewrite lookup_insert_eq. by eexists.
  - by rewrite lookup_insert_ne.
Qed.

Lemma final_thenAck queryID o : states (final (thenAck queryID o)) = states (final o).
Proof. by destruct o. Qed.

Lemma messageHandled_returns msg sts tr :
  ∃ b', messageHandled msg sts tr = Returns tt b'
      ∧ mu b' = false
      ∧ touches_only (Chat_ID msg) sts (states b').
Proof.
  unfold messageHandled.
  pose proof (touches_only_ensured (Chat_ID msg) sts) as Hens.
  destruct (String.eqb (msg_Text msg) "/new").
  { eexists. split; [done|]. split; [done|]. by apply touches_only_insert. }
  destruct (String.eqb (msg_Text msg) "/text").
  { eexists. by split. }
  destruct (String.eqb (WaitingFor _) StateInitial).
  { eexists. split; [done|]. split; [done|]. by apply touches_only_insert. }
  eexists. by split.
Qed.

Lemma topicSelected_ends ans userID topic st sts tr :
  let o := topicSelected ans userID topic st sts tr in
  (∀ b', o ≠ Blocks b')
  ∧ mu (final o) = false
  ∧ touches_only userID sts (states (final o)).
Proof.
  unfold topicSelected.
  destruct (chat_answer ans) as [|[|script more]]; simpl;
    (split; [done|]); (split; [done|]);
    apply touches_only_insert, touches_only_refl.
Qed.

Lemma categorySelected_ends ans userID category st sts tr :
  let o := categorySelected ans userID category st sts tr in
  (∀ b', o ≠ Blocks b')
  ∧ mu (final o) = false
  ∧ touches_only userID sts (states (final o)).
Proof.
  unfold categorySelected.
  destruct (chat_answer ans) as [|[|content more]]; cbv zeta.
  - simpl. split; [done|]. split; [done|].
    apply touches_only_insert, touches_only_refl.
  - simpl. split; [done|]. split; [done|].
    apply touches_only_insert, touches_only_refl.
  - rewrite sendTopics_outcome. destruct (_ <? _)%nat; simpl;
      (split; [done|]); (split; [done|]);
      apply touches_only_insert, touches_only_refl.
Qed.

Lemma thenAck_ends queryID o :
  ((∀ b', o ≠ Blocks b') → ∀ b', thenAck queryID o ≠ Blocks b')
  ∧ mu (final (thenAck queryID o)) = mu (final o).
Proof. destruct o; simpl; split; done. Qed.

Lemma RootMain_handleCallback_ends ans query sts tr :
  let o := RootMain.handleCallback ans query (mkBot sts false tr) in
  (∀ b', o ≠ Blocks b')
  ∧ mu (final o) = false
  ∧ touches_only (Message_Chat_ID query) sts (states (final o)).
Proof.
  destruct (sts !! Message_Chat_ID query) as [st|] eqn:Hst; cbv zeta.
  2: { rewrite RootMain_handleCallback_unknown by done. simpl.
       split; [done|]. split; [done|]. apply touches_only_refl. }
  rewrite (RootMain_handleCallback _ _ _ _ st Hst).
  rewrite final_thenAck.
  match goal with |- context [thenAck ?q ?o] =>
    destruct (thenAck_ends q o) as [Hblock ->];
    assert ((∀ b', o ≠ Blocks b') ∧ mu (final o) = false
            ∧ touches_only (Message_Chat_ID query) sts (states (final o)))
      as (Hno & Hmu & Htouch)
  end.
  { destruct (String.eqb (WaitingFor st) StateCategory);
      [apply categorySelected_ends|].
    destruct (String.eqb (WaitingFor st) StateTopic);
      [apply topicSelected_ends|].
    simpl. split; [done|]. split; [done|]. apply touches_only_refl. }
  split; [by apply Hblock|]. by split.
Qed.

Lemma InternalBot_handleCallback_ends ans query sts tr :
  let o := InternalBot.handleCallback ans query (mkBot sts false tr) in
  touches_only (Message_Chat_ID query) sts (states (final o))
  ∧ ((∃ b', o = Blocks b')
     ↔ ∃ st, sts !! Message_Chat_ID query = Some st ∧ WaitingFor st = StateCategory)
  ∧ (∀ b', o = Returns tt b' → mu b' = false).
Proof.
  cbv zeta. rewrite InternalBot_handleCallback_free.
  rewrite (InternalBot_handleCallback _ _ _ _ _ (ensured_lookup _ _)).
  pose proof (touches_only_ensured (Message_Chat_ID query) sts) as Hens.
  rewrite final_thenAck.
  destruct (String.eqb_spec (WaitingFor (session (Message_Chat_ID query) sts)) StateCategory)
    as [Hcat|Hcat].
  - simpl. split; [done|]. split; [|done]. split; [|by eexists].
    intros _. unfold session in Hcat.
    destruct (sts !! Message_Chat_ID query) as [st|]; [by exists st|done].
  - assert (¬ ∃ st, sts !! Message_Chat_ID query = Some st
                    ∧ WaitingFor st = StateCategory) as Hnot.
    { intros (st & Hst & Hw). apply Hcat. unfold session. by rewrite Hst. }
    destruct (String.eqb (WaitingFor _) StateTopic).
    + match goal with |- context [topicSelected ?a ?u ?t ?s ?m ?r] =>
        destruct (topicSelected_ends a u t s m r) as (Hno & Hmu & Htouch);
        destruct (topicSelected a u t s m r) as [[] b1|b1|b1] eqn:Ho
      end; simpl in *.
      * split; [by destruct Htouch as [-> | [x ->]];
                  [|apply touches_only_insert]|].
        split; [split; [by intros [? ?]|done]|]. by intros b' [= <-].
      * split; [by destruct Htouch as [-> | [x ->]];
                  [|apply touches_only_insert]|].
        split; [split; [by intros [? ?]|done]|]. done.
      * by destruct (Hno b1).
    + simpl. split; [done|]. split; [split; [by intros [? ?]|done]|].
      by intros b' [= <-].
Qed.

Lemma RootMain_handleUpdate_ends ans update sts tr :
  let o := RootMain.handleUpdate ans update (mkBot sts false tr) in
  (∀ b', o ≠ Blocks b')
  ∧ mu (final o) = false
  ∧ match sender update with
    | Some u => touches_only u sts (states (final o))
    | None => states (final o) = sts
    end.
Proof.
  unfold RootMain.handleUpdate, sender.
  destruct (upd_Message update) as [msg|].
  - rewrite RootMain_handleMessage.
    destruct (messageHandled_returns msg sts tr) as (b' & -> & Hmu & Htouch).
    by simpl.
  - destruct (upd_CallbackQuery update) as [query|].
    + apply RootMain_handleCallback_ends.
    + by simpl.
Qed.

Lemma InternalBot_handleUpdate_touches ans update sts tr :
  let o := InternalBot.handleUpdate ans update (mkBot sts false tr) in
  match sender update with
  | Some u => touches_only u sts (states (final o))
  | None => states (final o) = sts
  end.
Proof.
  unfold InternalBot.handleUpdate, sender.
  destruct (upd_Message update) as [msg|].
  - rewrite InternalBot_handleMessage.
    destruct (messageHandled_returns msg sts tr) as (b' & -> & Hmu & Htouch).
    by simpl.
  - destruct (upd_CallbackQuery update) as [query|].
    + apply InternalBot_handleCallback_ends.
    + by simpl.
Qed.

(** X4. Sessions are isolated: however the handling of an update ends
    (it returns, panics or blocks), in both files the session of every
    user other than the one the update comes from is bound to the same
    record as before. *)
Theorem other_sessions_untouched (b : Bot) (ans : Answers) (update : Update) (u : Z) :
  mu b = false →
  sender update ≠ Some u →
  states (final (InternalBot.handleUpdate ans update b)) !! u = states b !! u
  ∧ states (final (RootMain.handleUpdate ans update b)) !! u = states b !! u.
Proof.
  destruct b as [sts m tr]; simpl. intros -> Hother.
  pose proof (InternalBot_handleUpdate_touches ans update sts tr) as Hbot.
  destruct (RootMain_handleUpdate_ends ans update sts tr) as (_ & _ & Hmain).
  cbv zeta in *. destruct (sender update) as [v|].
  - assert (u ≠ v) by congruence.
    split; by eapply touches_only_frame.
  - by rewrite Hbot, Hmain.
Qed.

Lemma other_sessions_untouched_witness :
  states (final (RootMain.handleUpdate (answering "a,b,c,d,e") (selected 7 "Health")
                   (mkBot {[7 := mkUserState "" "" StateCategory "";
                            8 := mkUserState "ML" "Agents" StateTopic "text"]} false [])))
    !! 8
  = Some (mkUserState "ML" "Agents" StateTopic "text").
Proof.
  refine (proj2 (other_sessions_untouched
                   (mkBot {[7 := mkUserState "" "" StateCategory "";
                            8 := mkUserState "ML" "Agents" StateTopic "text"]} false [])
                   (answering "a,b,c,d,e") (selected 7 "Health") 8 _ _)).
  - reflexivity.
  - discriminate.
Defined.

(** X5. No handler removes a session: in both files a user who has a
    session before an update is handled still has one afterwards,
    however the handling ends. *)
Theorem sessions_are_never_removed (b : Bot) (ans : Answers) (update : Update) (u : Z) :
  mu b = false →
  is_Some (states b !! u) →
  is_Some (states (final (InternalBot.handleUpdate ans update b)) !! u)
  ∧ is_Some (states (final (RootMain.handleUpdate ans update b)) !! u).
Proof.
  destruct b as [sts m tr]; simpl. intros -> Hsome.
  pose proof (InternalBot_handleUpdate_touches ans update sts tr) as Hbot.
  destruct (RootMain_handleUpdate_ends ans update sts tr) as (_ & _ & Hmain).
  cbv zeta in *. destruct (sender update) as [v|].
  - split; by eapply touches_only_keeps.
  - by rewrite Hbot, Hmain.
Qed.

Lemma sessions_are_never_removed_witness :
  is_Some (states (final (InternalBot.handleUpdate failing (typed 7 "/new")
                            (mkBot {[7 := mkUserState "Health" "Sleep" StateTopic "text"]}
                               false []))) !! 7).
Proof.
  refine (proj1 (sessions_are_never_removed
                   (mkBot {[7 := mkUserState "Health" "Sleep" StateTopic "text"]} false [])
                   failing (typed 7 "/new") 7 _ _)).
  - reflexivity.
  - by eexists.
Defined.

(** X6. main.go never blocks: started with the mutex free, the handling
    of any update returns or panics, and either way the mutex is free
    again. *)
Theorem main_releases_the_mutex (b : Bot) (ans : Answers) (update : Update) :
  mu b = false →
  (∀ b', RootMain.handleUpdate ans update b ≠ Blocks b')
  ∧ mu (final (RootMain.handleUpdate ans update b)) = false.
Proof.
  destruct b as [sts m tr]; simpl. intros ->.
  destruct (RootMain_handleUpdate_ends ans update sts tr) as (Hno & Hmu & _).
  by split.
Qed.

Lemma main_releases_the_mutex_witness :
  mu (final (RootMain.handleUpdate (answering "a,b,c,d,e") (selected 7 "Health")
               (mkBot {[7 := mkUserState "" "" StateCategory ""]} false []))) = false.
Proof.
  refine (proj2 (main_releases_the_mutex
                   (mkBot {[7 := mkUserState "" "" StateCategory ""]} false [])
                   (answering "a,b,c,d,e") (selected 7 "Health") _)).
  reflexivity.
Defined.

Lemma InternalBot_handleCallback_panics ans query sts tr :
  (∃ b', InternalBot.handleCallback ans query (mkBot sts false tr) = Panics b')
  ↔ ∃ st, sts !! Message_Chat_ID query = Some st
          ∧ WaitingFor st = StateTopic
          ∧ chat_answer ans = ChatResponse [].
Proof.
  rewrite InternalBot_handleCallback_free.
  rewrite (InternalBot_handleCallback _ _ _ _ _ (ensured_lookup _ _)).
  unfold session.
  destruct (sts !! Message_Chat_ID query) as [st|] eqn:Hst; cbn [default from_option id].
  2: { eqb_lit. simpl. split; [by intros [? ?]|by intros (? & ? & _)]. }
  destruct (String.eqb_spec (WaitingFor st) StateCategory) as [Hcat|Hcat].
  { simpl. split; [by intros [? ?]|].
    intros (st0 & [= <-] & Hw & _). rewrite Hcat in Hw. discriminate. }
  destruct (String.eqb_spec (WaitingFor st) StateTopic) as [Htopic|Htopic].
  - unfold topicSelected.
    destruct (chat_answer ans) as [|[|script more]]; simpl.
    + split; [by intros [? ?]|by intros (? & _ & _ & ?)].
    + split; [|by eexists]. intros _. by exists st.
    + split; [by intros [? ?]|by intros (? & _ & _ & ?)].
  - simpl. split; [by intros [? ?]|].
    by intros (st0 & [= <-] & Hw & _).
Qed.

(** X7. How the handling of an update ends in internal/bot/bot.go,
    started with the mutex free.  It blocks on the mutex if and only if
    the update is a selection event (it carries no message) from a user
    whose session is at phase Category.  It panics if and only if the
    update is a selection event from a user whose session is at phase
    Topic and the script call answers with an empty choice list.  In
    every other case it returns, and the mutex is free again. *)
Theorem bot_blocks_exactly_at_category (b : Bot) (ans : Answers) (update : Update) :
  mu b = false →
  let at_category :=
    upd_Message update = None
    ∧ ∃ query st, upd_CallbackQuery update = Some query
                  ∧ states b !! Message_Chat_ID query = Some st
                  ∧ WaitingFor st = StateCategory in
  let no_choice :=
    upd_Message update = None
    ∧ ∃ query st, upd_CallbackQuery update = Some query
                  ∧ states b !! Message_Chat_ID query = Some st
                  ∧ WaitingFor st = StateTopic
                  ∧ chat_answer ans = ChatResponse [] in
  ((∃ b', InternalBot.handleUpdate ans update b = Blocks b') ↔ at_category)
  ∧ ((∃ b', InternalBot.handleUpdate ans update b = Panics b') ↔ no_choice)
  ∧ ((∃ b', InternalBot.handleUpdate ans update b = Returns tt b')
     ↔ ¬ at_category ∧ ¬ no_choice)
  ∧ (∀ b', InternalBot.handleUpdate ans update b = Returns tt b' → mu b' = false).
Proof.
  destruct b as [sts m tr]; simpl. intros ->.
  assert (((∃ b', InternalBot.handleUpdate ans update (mkBot sts false tr) = Blocks b')
           ↔ upd_Message update = None
             ∧ ∃ query st, upd_CallbackQuery update = Some query
                           ∧ sts !! Message_Chat_ID query = Some st
                           ∧ WaitingFor st = StateCategory)
          ∧ ((∃ b', InternalBot.handleUpdate ans update (mkBot sts false tr) = Panics b')
             ↔ upd_Message update = None
               ∧ ∃ query st, upd_CallbackQuery update = Some query
                             ∧ sts !! Message_Chat_ID query = Some st
                             ∧ WaitingFor st = StateTopic
                             ∧ chat_answer ans = ChatResponse [])
          ∧ (∀ b', InternalBot.handleUpdate ans update (mkBot sts false tr) = Returns tt b'
                   → mu b' = false)) as (Hblocks & Hpanics & Hmu).
  { unfold InternalBot.handleUpdate.
    destruct (upd_Message update) as [msg|].
    - rewrite InternalBot_handleMessage.
      destruct (messageHandled_returns msg sts tr) as (b1 & -> & Hmu & _).
      split; [split; [by intros [? ?]|by intros [? _]]|].
      split; [split; [by intros [? ?]|by intros [? _]]|].
      by intros b' [= <-].
    - destruct (upd_CallbackQuery update) as [query|].
      + destruct (InternalBot_handleCallback_ends ans query sts tr) as (_ & Hiff & Hmu).
        split; [|split; [|exact Hmu]].
        * rewrite Hiff. split.
          -- intros (st & Hst & Hw). split; [done|]. by exists query, st.
          -- intros (_ & q & st & [= <-] & Hst & Hw). by exists st.
        * rewrite InternalBot_handleCallback_panics. split.
          -- intros (st & Hst & Hw & Hans). split; [done|]. by exists query, st.
          -- intros (_ & q & st & [= <-] & Hst & Hw & Hans). by exists st.
      + split; [split; [by intros [? ?]|by intros (_ & q & st & ? & _)]|].
        split; [split; [by intros [? ?]|by intros (_ & q & st & ? & _)]|].
        by intros b' [= <-]. }
  split; [exact Hblocks|]. split; [exact Hpanics|]. split; [|exact Hmu].
  rewrite <- Hblocks, <- Hpanics.
  destruct (InternalBot.handleUpdate ans update (mkBot sts false tr)) as [[] b1|b1|b1].
  - split; [|by eexists]. intros _. split; by intros [? ?].
  - split; [by intros [? ?]|]. intros [_ Hno]. destruct Hno. by eexists.
  - split; [by intros [? ?]|]. intros [Hno _]. destruct Hno. by eexists.
Qed.

Lemma bot_blocks_exactly_at_category_witness :
  (∃ b', InternalBot.handleUpdate failing (selected 7 "Health") offered = Blocks b')
  ∧ (∃ b', InternalBot.handleUpdate (mkAnswers (ChatResponse []) SpeechError true)
             (selected 7 "Sleep") choosing = Panics b')
  ∧ (∃ b', InternalBot.handleUpdate failing (selected 7 "Sleep") choosing = Returns tt b').
Proof.
  split; [|split].
  - apply (bot_blocks_exactly_at_category offered failing (selected 7 "Health")).
    + reflexivity.
    + split; [reflexivity|].
      exists (mkCallbackQuery "q1" 7 "Health"), (mkUserState "" "" StateCategory "").
      repeat split; reflexivity.
  - apply (bot_blocks_exactly_at_category choosing
             (mkAnswers (ChatResponse []) SpeechError true) (selected 7 "Sleep")).
    + reflexivity.
    + split; [reflexivity|].
      exists (mkCallbackQuery "q1" 7 "Sleep"), (mkUserState "Health" "" StateTopic "").
      repeat split; reflexivity.
  - apply (bot_blocks_exactly_at_category choosing failing (selected 7 "Sleep")).
    + reflexivity.
    + split.
      * intros (_ & query & st & [= <-] & [= <-] & Hw). discriminate.
      * intros (_ & query & st & [= <-] & [= <-] & _ & Hans). discriminate.
Defined.

(** ** The update loop *)

Lemma InternalBot_serve_app updates1 updates2 b :
  InternalBot.serve (updates1 ++ updates2) b
  = match InternalBot.serve updates1 b with
    | Returns _ b1 => InternalBot.serve updates2 b1
    | Panics b1 => Panics b1
    | Blocks b1 => Blocks b1
    end.
Proof.
  revert b. induction updates1 as [|[update ans] updates1 IH]; intros b; [done|].
  simpl. unfold bind.
  by destruct (InternalBot.handleUpdate ans update b) as [[] b1| |].
Qed.

(** X8. In internal/bot/bot.go the first selection event for a session at
    phase Category ends the service: whatever updates were handled before
    and whatever updates follow, the loop of [Run] blocks at that event,
    and none of the later updates is handled (the trace and the store stay
    as they were when the event arrived). *)
Theorem loop_stops_at_category_selection
    (before rest : list (Update * Answers)) (b0 b : Bot)
    (query : CallbackQuery) (ans : Answers) (st : UserState) :
  InternalBot.serve before b0 = Returns tt b →
  mu b = false →
  states b !! Message_Chat_ID query = Some st →
  WaitingFor st = StateCategory →
  InternalBot.serve (before ++ (mkUpdate None (Some query), ans) :: rest) b0
  = Blocks (mkBot (states b) true (trace b)).
Proof.
  intros Hbefore Hmu Hst Hw. rewrite InternalBot_serve_app, Hbefore.
  destruct b as [sts m tr]; simpl in *; subst m.
  unfold bind, InternalBot.handleUpdate. simpl.
  by rewrite (InternalBot_handleCallback_category _ _ _ _ st Hst Hw).
Qed.

Lemma loop_stops_at_category_selection_witness :
  InternalBot.serve
    ([(typed 7 "/new", failing)]
     ++ (mkUpdate None (Some (pressed "Health")), answering "a,b,c,d,e")
        :: [(typed 7 "/text", failing); (typed 8 "/new", failing)])
    InternalBot.New
  = Blocks (mkBot {[7 := mkUserState "" "" StateCategory ""]} true
              [TgSend (categoriesMessage 7)]).
Proof.
  eapply eq_trans.
  - apply (loop_stops_at_category_selection
             [(typed 7 "/new", failing)]
             [(typed 7 "/text", failing); (typed 8 "/new", failing)]
             InternalBot.New
             (mkBot {[7 := mkUserState "" "" StateCategory ""]} false
                [TgSend (categoriesMessage 7)])
             (pressed "Health") (answering "a,b,c,d,e")
             (mkUserState "" "" StateCategory "")); reflexivity.
  - reflexivity.
Defined.

(** ** The values of the phase field *)

Lemma known_phase_selected ans query sts tr st b' :
  all_sessions known_phase sts →
  sts !! Message_Chat_ID query = Some st →
  thenAck (ID query)
    (if String.eqb (WaitingFor st) StateCategory
     then categorySelected ans (Message_Chat_ID query) (Data query) st sts tr
     else if String.eqb (WaitingFor st) StateTopic
          then topicSelected ans (Message_Chat_ID query) (Data query) st sts tr
          else Returns tt (mkBot sts false tr)) = Returns tt b' →
  all_sessions known_phase (states b').
Proof.
  intros Hall Hst (b & Hrun & -> & _)%thenAck_returns. revert Hrun.
  destruct (String.eqb (WaitingFor st) StateCategory).
  { unfold categorySelected.
    destruct (chat_answer ans) as [|[|content more]]; [|done|].
    - intros [= <-]. apply all_sessions_insert; [done|]. right; by left.
    - rewrite sendTopics_outcome. destruct (_ <? _)%nat; [done|].
      intros [= <-]. apply all_sessions_insert; [done|]. right; by right. }
  destruct (String.eqb (WaitingFor st) StateTopic); [|by intros [= <-]].
  unfold topicSelected.
  destruct (chat_answer ans) as [|[|script more]]; [|done|];
    intros [= <-]; (apply all_sessions_insert; [done|]).
  - right; by left.
  - unfold known_phase. cbn [WaitingFor].
    destruct (audioFails ans); [right; by left|]. by apply (Hall (Message_Chat_ID query)).
Qed.

(** X9. The phase field only ever holds one of the three constants: in
    every state main.go reaches by handling updates (with any labels),
    every session's [WaitingFor] is ["initial"], ["category"] or
    ["topic"], although the field is an unconstrained string. *)
Theorem phases_are_known (b : Bot) :
  reachable RootMain.handleUpdate any_label b →
  ∀ u st, states b !! u = Some st →
    WaitingFor st = "initial" ∨ WaitingFor st = "category" ∨ WaitingFor st = "topic".
Proof.
  intros Hreach.
  assert (mu b = false ∧ all_sessions known_phase (states b)) as [_ Hall]; [|exact Hall].
  induction Hreach as [b Hempty Hmu|b ans update b' _ [Hmu Hall] _ Hrun].
  { split; [done|]. rewrite Hempty. intros u st. by rewrite lookup_empty. }
  destruct b as [sts m tr]; simpl in *; subst m.
  destruct (RootMain_handleUpdate_ends ans update sts tr) as (_ & Hmu' & _).
  cbv zeta in Hmu'. rewrite Hrun in Hmu'. split; [exact Hmu'|].
  unfold RootMain.handleUpdate in Hrun.
  destruct (upd_Message update) as [msg|].
  - rewrite RootMain_handleMessage in Hrun.
    apply (messageHandled_keeps known_phase) in Hrun as [? ?]; try done.
    + by left.
    + right; by left.
    + intros st _. right; by left.
  - destruct (upd_CallbackQuery update) as [query|]; [|by injection Hrun as <-].
    destruct (sts !! Message_Chat_ID query) as [st|] eqn:Hst.
    + rewrite (RootMain_handleCallback _ _ _ _ st Hst) in Hrun.
      by eapply known_phase_selected.
    + by rewrite RootMain_handleCallback_unknown in Hrun.
Qed.

Lemma phases_are_known_witness :
  ∃ tr,
    RootMain.main true
      [(typed 7 "/new", failing); (selected 7 "Health", answering "a,b,c,d,e")]
      RootMain.initial
    = Returns tt (mkBot {[7 := mkUserState "Health" "" "topic" ""]} false tr)
    ∧ (WaitingFor (mkUserState "Health" "" "topic" "") = "initial"
       ∨ WaitingFor (mkUserState "Health" "" "topic" "") = "category"
       ∨ WaitingFor (mkUserState "Health" "" "topic" "") = "topic").
Proof.
  eexists. split; [vm_compute; reflexivity|].
  match goal with |- WaitingFor ?st = _ ∨ _ =>
    eapply (phases_are_known _ _ 7 st)
  end.
  Unshelve.
  3: { eapply (RootMain_main_reachable any_label true
                 [(typed 7 "/new", failing); (selected 7 "Health", answering "a,b,c,d,e")]).
       - repeat constructor.
       - vm_compute. reflexivity. }
  reflexivity.
Defined.

(** ** Text messages *)

Lemma eqb_false_of_ne (s1 s2 : string) : s1 ≠ s2 → String.eqb s1 s2 = false.
Proof. by intros ?%String.eqb_neq. Qed.

(** X10. Free-form text is ignored once the flow has started: for a user
    whose session is not at phase Initial, a message that is neither
    [/new] nor [/text] changes nothing and sends nothing, in both
    files. *)
Theorem free_text_is_ignored (b : Bot) (userID : Z) (text : string) (st : UserState) :
  mu b = false →
  text ≠ "/new" →
  text ≠ "/text" →
  states b !! userID = Some st →
  WaitingFor st ≠ StateInitial →
  InternalBot.handleMessage (mkMessage userID text) b = Returns tt b
  ∧ RootMain.handleMessage (mkMessage userID text) b = Returns tt b.
Proof.
  destruct b as [sts m tr]; simpl. intros -> Hnew Htext Hst Hw.
  rewrite InternalBot_handleMessage, RootMain_handleMessage.
  unfold messageHandled, session, ensured. cbn [Chat_ID msg_Text]. rewrite Hst.
  rewrite (eqb_false_of_ne _ _ Hnew), (eqb_false_of_ne _ _ Htext).
  cbn [default from_option id]. by rewrite (eqb_false_of_ne _ _ Hw).
Qed.

Lemma free_text_is_ignored_witness :
  InternalBot.handleMessage (mkMessage 7 "hello") choosing = Returns tt choosing.
Proof.
  refine (proj1 (free_text_is_ignored choosing 7 "hello"
                   (mkUserState "Health" "" StateTopic "") _ _ _ _ _));
    first [reflexivity | discriminate].
Defined.

(** X11. First contact: whatever a user with no session writes, other
    than [/text], the session is created, the category offer is sent and
    the session is left at phase Category with empty category, topic and
    script, in both files. *)
Theorem first_message_offers_categories (b : Bot) (userID : Z) (text : string) :
  mu b = false →
  text ≠ "/text" →
  states b !! userID = None →
  InternalBot.handleMessage (mkMessage userID text) b
  = Returns tt
      (mkBot (<[userID := mkUserState "" "" StateCategory ""]> (states b)) false
         (trace b ++ [TgSend (categoriesMessage userID)]))
  ∧ RootMain.handleMessage (mkMessage userID text) b
    = InternalBot.handleMessage (mkMessage userID text) b.
Proof.
  destruct b as [sts m tr]; simpl. intros -> Htext Hst.
  rewrite handleMessage_agree. split; [|done].
  rewrite InternalBot_handleMessage.
  unfold messageHandled, session, ensured. cbn [Chat_ID msg_Text]. rewrite Hst.
  rewrite (eqb_false_of_ne _ _ Htext). cbn [default from_option id].
  destruct (String.eqb text "/new"); eqb_lit; by rewrite insert_insert_eq.
Qed.

Lemma first_message_offers_categories_witness :
  InternalBot.handleMessage (mkMessage 7 "hi there") InternalBot.New
  = Returns tt
      (mkBot {[7 := mkUserState "" "" StateCategory ""]} false
         [TgSend (categoriesMessage 7)]).
Proof.
  refine (proj1 (first_message_offers_categories InternalBot.New 7 "hi there" _ _ _));
    first [reflexivity | discriminate].
Defined.

(** X12. Asking for the text before any script exists: for a user with
    no session, or with a session whose script is empty, [/text] sends
    the no-script notice and nothing else, in both files; the only change
    to the store is the Initial session created for a user who had
    none. *)
Theorem text_request_without_script (b : Bot) (userID : Z) :
  mu b = false →
  (states b !! userID = None
   ∨ ∃ st, states b !! userID = Some st ∧ ScriptText st = "") →
  ∃ sts',
    InternalBot.handleMessage (mkMessage userID "/text") b
    = Returns tt (mkBot sts' false (trace b ++ [TgSend (noScriptMessage userID)]))
    ∧ RootMain.handleMessage (mkMessage userID "/text") b
      = Returns tt (mkBot sts' false (trace b ++ [TgSend (noScriptMessage userID)]))
    ∧ (states b !! userID = None → sts' = <[userID := freshUserState]> (states b))
    ∧ (is_Some (states b !! userID) → sts' = states b).
Proof.
  destruct b as [sts m tr]; simpl. intros -> Hscript.
  exists (ensured userID sts).
  rewrite handleMessage_agree, InternalBot_handleMessage.
  unfold messageHandled. cbn [Chat_ID msg_Text]. eqb_lit.
  assert (ScriptText (session userID sts) = "") as ->.
  { unfold session. by destruct Hscript as [-> | (st & -> & Hst)]. }
  eqb_lit. split; [done|]. split; [done|]. unfold ensured.
  split; [by intros ->|]. by intros [st ->].
Qed.

Lemma text_request_without_script_witness :
  InternalBot.handleMessage (mkMessage 7 "/text") choosing
  = Returns tt
      (mkBot {[7 := mkUserState "Health" "" StateTopic ""]} false
         [TgSend (noScriptMessage 7)]).
Proof.
  destruct (text_request_without_script choosing 7) as (sts' & Hrun & _ & _ & Hsame).
  { reflexivity. }
  { right. by eexists. }
  rewrite Hrun. rewrite Hsame; [reflexivity|]. by eexists.
Defined.

(** ** Selections outside the flow *)

(** X13. A selection event from a user with no session: in
    internal/bot/bot.go the lookup creates the session at phase Initial
    and the event is only acknowledged; in main.go the handler reads the
    phase through a nil pointer and panics, sending nothing, not even
    the acknowledgment. *)
Theorem selection_from_unknown_user (b : Bot) (ans : Answers) (query : CallbackQuery) :
  mu b = false →
  states b !! Message_Chat_ID query = None →
  InternalBot.handleCallback ans query b
  = Returns tt
      (mkBot (<[Message_Chat_ID query := freshUserState]> (states b)) false
         (trace b ++ [TgSend (CallbackConfig (ID query) "")]))
  ∧ RootMain.handleCallback ans query b = Panics b.
Proof.
  destruct b as [sts m tr]; simpl. intros -> Hst. split.
  - rewrite InternalBot_handleCallback_free.
    rewrite (InternalBot_handleCallback _ _ _ _ _ (ensured_lookup _ _)).
    unfold session, ensured. rewrite Hst. cbn [default from_option id]. by eqb_lit.
  - by apply RootMain_handleCallback_unknown.
Qed.

Lemma selection_from_unknown_user_witness :
  InternalBot.handleCallback failing (pressed "Health") InternalBot.New
  = Returns tt (mkBot {[7 := freshUserState]} false [TgSend (CallbackConfig "q1" "")])
  ∧ RootMain.handleCallback failing (pressed "Health") RootMain.initial
    = Panics RootMain.initial.
Proof.
  split.
  - refine (proj1 (selection_from_unknown_user InternalBot.New failing
                     (pressed "Health") _ _)); reflexivity.
  - refine (proj2 (selection_from_unknown_user RootMain.initial failing
                     (pressed "Health") _ _)); reflexivity.
Defined.

(** X14. A selection event at phase Initial (or at any phase other than
    Category and Topic) has no handler: in both files it is acknowledged
    and nothing else happens; no service is called and the session is
    unchanged. *)
Theorem selection_at_initial_is_only_acknowledged (b : Bot) (ans : Answers)
    (query : CallbackQuery) (st : UserState) :
  mu b = false →
  states b !! Message_Chat_ID query = Some st →
  WaitingFor st ≠ StateCategory →
  WaitingFor st ≠ StateTopic →
  InternalBot.handleCallback ans query b
  = Returns tt (mkBot (states b) false (trace b ++ [TgSend (CallbackConfig (ID query) "")]))
  ∧ RootMain.handleCallback ans query b = InternalBot.handleCallback ans query b.
Proof.
  destruct b as [sts m tr]; simpl. intros -> Hst Hcat Htopic.
  rewrite (handleCallback_agree _ _ _ _ st Hst Hcat). split; [|done].
  rewrite (InternalBot_handleCallback _ _ _ _ st Hst).
  by rewrite (eqb_false_of_ne _ _ Hcat), (eqb_false_of_ne _ _ Htopic).
Qed.

Lemma selection_at_initial_is_only_acknowledged_witness :
  InternalBot.handleCallback (answering "a,b,c,d,e") (pressed "Health")
    (mkBot {[7 := freshUserState]} false [])
  = Returns tt (mkBot {[7 := freshUserState]} false [TgSend (CallbackConfig "q1" "")]).
Proof.
  refine (proj1 (selection_at_initial_is_only_acknowledged
                   (mkBot {[7 := freshUserState]} false [])
                   (answering "a,b,c,d,e") (pressed "Health") freshUserState _ _ _ _));
    first [reflexivity | discriminate].
Defined.

(** ** Audio delivery, from the caller's side *)

(** X15. [generateAndSendAudio] on its good path: when the speech call
    succeeds, its body is read and the file is written, the calls are, in
    this order, the speech request, the read, the write of
    [<chat id>.mp3], the audio message with its caption, the removal of
    that same file, and the closing of the response body; no session
    changes. *)
Theorem audio_is_sent_then_cleaned_up (b : Bot) (ans : Answers) (userID : Z)
    (text : string) (audioData : list Byte.byte) :
  mu b = false →
  speech_answer ans = SpeechBody (Some audioData) →
  write_ok ans = true →
  generateAndSendAudio ans userID text b
  = Returns tt
      (mkBot (states b) false
         (trace b ++ [AiCreateSpeech "tts-1" text "alloy";
                      IoReadAll;
                      OsWriteFile (pretty userID +:+ ".mp3") audioData;
                      TgSend (AudioConfig userID (pretty userID +:+ ".mp3")
                                "Here's your podcast, enjoy!");
                      OsRemove (pretty userID +:+ ".mp3");
                      RespClose])).
Proof.
  destruct b as [sts m tr]; simpl. intros -> Hspeech Hwrite.
  unfold generateAndSendAudio. rewrite Hspeech, Hwrite. go.
  rewrite <- !app_assoc. reflexivity.
Qed.

Lemma audio_is_sent_then_cleaned_up_witness :
  generateAndSendAudio (answering "A script.") 7 "A script." choosing
  = Returns tt
      (mkBot {[7 := mkUserState "Health" "" StateTopic ""]} false
         [AiCreateSpeech "tts-1" "A script." "alloy"; IoReadAll;
          OsWriteFile "7.mp3" [];
          TgSend (AudioConfig 7 "7.mp3" "Here's your podcast, enjoy!");
          OsRemove "7.mp3"; RespClose]).
Proof.
  eapply eq_trans.
  - apply (audio_is_sent_then_cleaned_up choosing (answering "A script.") 7 "A script." []);
      reflexivity.
  - vm_compute. reflexivity.
Defined.

(** X16. [generateAndSendAudio] on its failure paths: when the speech
    call fails, or its body cannot be read, or the file cannot be written,
    the function still returns with the mutex free, having sent the error
    notice and the category menu but no audio message; the session is put
    back to phase Category; no file is removed (after a failed write the
    removal is not registered); and the response body, if there was one,
    is closed as the last call. *)
Theorem audio_failure_is_reported (b : Bot) (ans : Answers) (userID : Z)
    (text : string) (st : UserState) :
  mu b = false →
  states b !! userID = Some st →
  (speech_answer ans = SpeechError
   ∨ speech_answer ans = SpeechBody None
   ∨ write_ok ans = false) →
  ∃ made,
    generateAndSendAudio ans userID text b
    = Returns tt
        (mkBot (<[userID := set_WaitingFor StateCategory st]> (states b)) false
           (trace b ++ AiCreateSpeech TTSModel1 text VoiceAlloy :: made))
    ∧ (∃ pre post, made = pre ++ TgSend (errorMessage userID)
                           :: TgSend (categoriesMessage userID) :: post)
    ∧ List.existsb isAudio made = false
    ∧ List.existsb isRemove made = false
    ∧ (speech_answer ans ≠ SpeechError → last made = Some RespClose).
Proof.
  destruct b as [sts m tr]; simpl. intros -> Hst Hfail.
  rewrite (generateAndSendAudio_known _ _ _ _ _ st Hst).
  assert (audioFails ans = true) as ->.
  { unfold audioFails. destruct (speech_answer ans) as [|[data|]]; try done.
    destruct Hfail as [?|[?| ->]]; done. }
  unfold audioCalls, errorCalls.
  destruct (speech_answer ans) as [|[data|]] eqn:Hspeech.
  - eexists. split; [reflexivity|]. split; [by exists [], []|]. done.
  - assert (write_ok ans = false) as -> by (by destruct Hfail as [?|[?|?]]).
    eexists. split; [reflexivity|].
    split; [by exists [IoReadAll; OsWriteFile (audioPath userID) data], [RespClose]|].
    done.
  - eexists. split; [reflexivity|].
    split; [by exists [IoReadAll], [RespClose]|]. done.
Qed.

Lemma audio_failure_is_reported_witness :
  ∃ made,
    generateAndSendAudio failing 7 "A script." choosing
    = Returns tt
        (mkBot {[7 := mkUserState "Health" "" StateCategory ""]} false
           (AiCreateSpeech TTSModel1 "A script." VoiceAlloy :: made))
    ∧ List.existsb isAudio made = false.
Proof.
  destruct (audio_failure_is_reported choosing failing 7 "A script."
              (mkUserState "Health" "" StateTopic ""))
    as (made & Hrun & _ & Haudio & _).
  { reflexivity. }
  { reflexivity. }
  { left. reflexivity. }
  exists made. split; [|exact Haudio]. rewrite Hrun. reflexivity.
Defined.

(** ** The script and the text command *)

(** X17. The script is stored before the audio is attempted: when the
    script call made for a topic selection answers with a non-empty
    script, then whatever the speech service and the file system do
    afterwards, the handler returns, and a following [/text] from that
    user sends that script (truncated as [/text] does), in both files. *)
Theorem script_survives_audio_failure (b : Bot) (ans : Answers) (query : CallbackQuery)
    (st : UserState) (script : string) (more : list string) :
  mu b = false →
  states b !! Message_Chat_ID query = Some st →
  WaitingFor st = StateTopic →
  chat_answer ans = ChatResponse (script :: more) →
  script ≠ "" →
  ∃ b1,
    InternalBot.handleCallback ans query b = Returns tt b1
    ∧ RootMain.handleCallback ans query b = Returns tt b1
    ∧ (∃ st1, states b1 !! Message_Chat_ID query = Some st1 ∧ ScriptText st1 = script
              ∧ Topic st1 = Data query ∧ Category st1 = Category st)
    ∧ InternalBot.handleMessage (mkMessage (Message_Chat_ID query) "/text") b1
      = Returns tt
          (mkBot (states b1) false
             (trace b1 ++ [TgSend (MessageConfig (Message_Chat_ID query)
                                     (textReply script) None ModeMarkdown)]))
    ∧ RootMain.handleMessage (mkMessage (Message_Chat_ID query) "/text") b1
      = InternalBot.handleMessage (mkMessage (Message_Chat_ID query) "/text") b1.
Proof.
  destruct b as [sts m tr]; simpl. intros -> Hst Hw Hchat Hscript.
  rewrite (InternalBot_handleCallback _ _ _ _ st Hst),
    (RootMain_handleCallback _ _ _ _ st Hst), Hw. eqb_lit.
  unfold topicSelected. rewrite Hchat. cbn [thenAck states mu trace].
  eexists. split; [reflexivity|]. split; [reflexivity|]. cbn [states mu trace].
  split; [eexists; split; [apply lookup_insert_eq|done]|].
  rewrite handleMessage_agree. split; [|done].
  rewrite InternalBot_handleMessage.
  unfold messageHandled, session, ensured. cbn [Chat_ID msg_Text].
  rewrite lookup_insert_eq. cbn [default from_option id ScriptText]. eqb_lit.
  by rewrite (eqb_false_of_ne _ _ Hscript).
Qed.

Lemma script_survives_audio_failure_witness :
  ∃ b1,
    InternalBot.handleCallback (speechless "A script.") (pressed "Sleep") choosing
    = Returns tt b1
    ∧ InternalBot.handleMessage (mkMessage 7 "/text") b1
      = Returns tt
          (mkBot (states b1) false
             (trace b1 ++ [TgSend (MessageConfig 7 "A script." None ModeMarkdown)])).
Proof.
  destruct (script_survives_audio_failure choosing (speechless "A script.")
              (pressed "Sleep") (mkUserState "Health" "" StateTopic "") "A script." [])
    as (b1 & Hrun & _ & _ & Htext & _).
  { reflexivity. }
  { reflexivity. }
  { reflexivity. }
  { reflexivity. }
  { discriminate. }
  exists b1. split; [exact Hrun|]. exact Htext.
Defined.

(** X18. A successful response without any choice: the handlers read
    [resp.Choices[0]] unguarded, so for a session at phase Topic a
    response with an empty choice list makes the handler panic, in both
    files, after the topic was recorded and the call was made; nothing is
    sent to the user, the acknowledgment included, and the script is as
    it was. *)
Theorem empty_choices_panic (b : Bot) (ans : Answers) (query : CallbackQuery)
    (st : UserState) :
  mu b = false →
  states b !! Message_Chat_ID query = Some st →
  WaitingFor st = StateTopic →
  chat_answer ans = ChatResponse [] →
  InternalBot.handleCallback ans query b
  = Panics
      (mkBot (<[Message_Chat_ID query :=
                  mkUserState (Category st) (Data query) StateTopic (ScriptText st)]>
                (states b))
         false
         (trace b ++ [AiCreateChatCompletion GPT4o
                        (scriptPrompt (Data query) (Category st))]))
  ∧ RootMain.handleCallback ans query b = InternalBot.handleCallback ans query b.
Proof.
  destruct b as [sts m tr]; simpl. intros -> Hst Hw Hchat.
  rewrite (handleCallback_agree _ _ _ _ st Hst) by (rewrite Hw; discriminate).
  split; [|done].
  rewrite (InternalBot_handleCallback _ _ _ _ st Hst), Hw. eqb_lit.
  unfold topicSelected, set_Topic. by rewrite Hchat, Hw.
Qed.

Lemma empty_choices_panic_witness :
  InternalBot.handleCallback (mkAnswers (ChatResponse []) SpeechError true)
    (pressed "Sleep") choosing
  = Panics
      (mkBot {[7 := mkUserState "Health" "Sleep" StateTopic ""]} false
         [AiCreateChatCompletion GPT4o (scriptPrompt "Sleep" "Health")]).
Proof.
  eapply eq_trans.
  - refine (proj1 (empty_choices_panic choosing
                     (mkAnswers (ChatResponse []) SpeechError true) (pressed "Sleep")
                     (mkUserState "Health" "" StateTopic "") _ _ _ _)); reflexivity.
  - reflexivity.
Defined.

(** ** The session store, composed *)

(** X19. The store operations of internal/bot/bot.go compose as a
    get-or-create store should: what [getState] returns is what the store
    then holds for the user; a second [getState] returns the same session
    and changes nothing; and after [resetState] the next [getState]
    returns a fresh session at phase Initial, whatever was stored, while
    the other users' sessions are as they were at the start. *)
Theorem store_operations_compose (b : Bot) (userID : Z) :
  mu b = false →
  ∃ st b1 b2,
    InternalBot.getState userID b = Returns st b1
    ∧ states b1 !! userID = Some st
    ∧ InternalBot.getState userID b1 = Returns st b1
    ∧ InternalBot.resetState userID b1 = Returns tt b2
    ∧ InternalBot.getState userID b2 = Returns (mkUserState "" "" "initial" "") b2
    ∧ ∀ u, u ≠ userID → states b2 !! u = states b !! u.
Proof.
  destruct b as [sts m tr]; simpl. intros ->.
  exists (session userID sts), (mkBot (ensured userID sts) false tr),
    (mkBot (<[userID := freshUserState]> (ensured userID sts)) false tr).
  split; [apply getState_free|]. simpl.
  split; [apply ensured_lookup|].
  split; [by rewrite getState_free, ensured_idem, session_ensured|].
  split; [apply resetState_free|].
  split; [by rewrite (getState_known _ _ _ freshUserState) by apply lookup_insert_eq|].
  intros u Hu. rewrite lookup_insert_ne by done.
  by apply (touches_only_frame userID _ _ _ (touches_only_ensured userID sts)).
Qed.

Lemma store_operations_compose_witness :
  ∃ st b1 b2,
    InternalBot.getState 7 choosing = Returns st b1
    ∧ InternalBot.resetState 7 b1 = Returns tt b2
    ∧ InternalBot.getState 7 b2 = Returns (mkUserState "" "" "initial" "") b2.
Proof.
  destruct (store_operations_compose choosing 7) as (st & b1 & b2 & H1 & _ & _ & H2 & H3 & _).
  { reflexivity. }
  exists st, b1, b2. repeat split; assumption.
Defined.

(** X20. The senders need a session: for a user with no session,
    [sendCategories] panics on the nil pointer before anything is sent,
    with the mutex still held; [sendError] has already sent the error
    notice when that happens. *)
Theorem senders_need_a_session (b : Bot) (userID : Z) :
  mu b = false →
  states b !! userID = None →
  sendCategories userID b = Panics (mkBot (states b) true (trace b))
  ∧ sendError userID b
    = Panics (mkBot (states b) true (trace b ++ [TgSend (errorMessage userID)])).
Proof.
  destruct b as [sts m tr]; simpl. intros -> Hst.
  split; [by apply sendCategories_unknown|].
  unfold sendError. go. by rewrite sendCategories_unknown.
Qed.

Lemma senders_need_a_session_witness :
  sendCategories 7 InternalBot.New = Panics (mkBot ∅ true []).
Proof.
  refine (proj1 (senders_need_a_session InternalBot.New 7 _ _)); reflexivity.
Defined.

(** ** The topic offer *)

(** X21. With at least 3 candidates the topic offer loses none: the
    message has two rows, the first of exactly 3 buttons; the two rows
    together are one button per candidate, in the order of the candidates;
    and every button carries its own text as callback data, so the label
    that comes back in the selection event is the text shown. *)
Theorem topic_offer_covers_candidates (b : Bot) (userID : Z) (topics : list string) :
  (3 ≤ length topics)%nat →
  ∃ row1 row2,
    sendTopics userID topics b
    = Returns tt
        (mkBot (states b) (mu b)
           (trace b ++ [TgSend (MessageConfig userID "Choose a specific topic:"
                                  (Some [row1; row2]) "")]))
    ∧ length row1 = 3%nat
    ∧ Text <$> (row1 ++ row2) = topics
    ∧ CallbackData <$> (row1 ++ row2) = Some <$> topics.
Proof.
  intros Hlen. exists (button <$> take 3 topics), (button <$> drop 3 topics).
  rewrite sendTopics_outcome.
  destruct (Nat.ltb_spec (length topics) 3); [lia|].
  split; [reflexivity|].
  split; [rewrite length_fmap, length_take; lia|].
  rewrite <- fmap_app, take_drop, <- !list_fmap_compose.
  split; [|done]. by rewrite <- (list_fmap_id topics) at 2.
Qed.

Lemma topic_offer_covers_candidates_witness :
  ∃ row1 row2,
    sendTopics 7 ["Nutrition"; "Sleep"; "Exercise"; "Mental Health"; "Hydration"]
      InternalBot.New
    = Returns tt
        (mkBot ∅ false
           [TgSend (MessageConfig 7 "Choose a specific topic:" (Some [row1; row2]) "")])
    ∧ Text <$> (row1 ++ row2)
      = ["Nutrition"; "Sleep"; "Exercise"; "Mental Health"; "Hydration"].
Proof.
  destruct (topic_offer_covers_candidates InternalBot.New 7
              ["Nutrition"; "Sleep"; "Exercise"; "Mental Health"; "Hydration"])
    as (row1 & row2 & Hrun & _ & Htext & _).
  { simpl. lia. }
  exists row1, row2. split; [exact Hrun|exact Htext].
Defined.

(** ** The whole flow of main.go *)

Lemma insert_ensured u st sts : <[u := st]> (ensured u sts) = <[u := st]> sts.
Proof. unfold ensured. destruct (sts !! u); [done|]. by rewrite insert_insert_eq. Qed.

Lemma RootMain_handleUpdate_typed ans userID text :
  RootMain.handleUpdate ans (typed userID text)
  = RootMain.handleMessage (mkMessage userID text).
Proof. reflexivity. Qed.

Lemma RootMain_handleUpdate_selected ans userID data :
  RootMain.handleUpdate ans (selected userID data)
  = RootMain.handleCallback ans (mkCallbackQuery "q1" userID data).
Proof. reflexivity. Qed.

(** X22. The whole flow in main.go, for any user, labels and answers:
    [/new], a category selection answered with at least 3 suggestions, a
    topic selection answered with a non-empty script whose audio is
    delivered, then [/text].  The loop returns; the session holds the two
    labels, phase Topic and the script; and the trace is, in order, the
    category offer, the suggestion call, the printed response, the topic
    offer, the acknowledgment, the script call, the audio delivery with
    its clean-up, the second acknowledgment, and the script as text. *)
Theorem main_whole_flow (b : Bot) (userID : Z) (category topic content script : string)
    (more1 more2 : list string) (audioData : list Byte.byte) (a0 a1 a2 a3 : Answers) :
  mu b = false →
  chat_answer a1 = ChatResponse (content :: more1) →
  (3 ≤ length (splitTopics content))%nat →
  chat_answer a2 = ChatResponse (script :: more2) →
  speech_answer a2 = SpeechBody (Some audioData) →
  write_ok a2 = true →
  script ≠ "" →
  RootMain.serve
    [(typed userID "/new", a0); (selected userID category, a1);
     (selected userID topic, a2); (typed userID "/text", a3)] b
  = Returns tt
      (mkBot (<[userID := mkUserState category topic StateTopic script]> (states b)) false
         (trace b
          ++ [TgSend (categoriesMessage userID);
              AiCreateChatCompletion GPT4o (topicsPrompt category);
              FmtPrintln content;
              TgSend (topicsMessage userID (button <$> take 3 (splitTopics content))
                        (button <$> drop 3 (splitTopics content)));
              TgSend (CallbackConfig "q1" "");
              AiCreateChatCompletion GPT4o (scriptPrompt topic category);
              AiCreateSpeech TTSModel1 script VoiceAlloy;
              IoReadAll;
              OsWriteFile (audioPath userID) audioData;
              TgSend (AudioConfig userID (audioPath userID) "Here's your podcast, enjoy!");
              OsRemove (audioPath userID);
              RespClose;
              TgSend (CallbackConfig "q1" "");
              TgSend (MessageConfig userID (textReply script) None ModeMarkdown)])).
Proof.
  destruct b as [sts m tr]; simpl states; simpl trace; simpl mu.
  intros -> Hchat1 Hlen Hchat2 Hspeech Hwrite Hscript.
  cbn [RootMain.serve].
  rewrite !RootMain_handleUpdate_typed, !RootMain_handleUpdate_selected.
  unfold bind at 1.
  rewrite RootMain_handleMessage. unfold messageHandled at 1.
  cbn [Chat_ID msg_Text]. eqb_lit. rewrite insert_ensured. cbv beta iota.
  unfold bind at 1.
  rewrite (RootMain_category_selection_succeeds _ _ _ _
             (mkUserState "" "" StateCategory "") content more1);
    [|apply lookup_insert_eq|done|done|done].
  cbn [Message_Chat_ID Data ID Topic ScriptText]. rewrite insert_insert_eq.
  cbv beta iota. unfold bind at 1.
  rewrite (RootMain_handleCallback _ _ _ _
             (mkUserState category "" StateTopic "")) by apply lookup_insert_eq.
  cbn [WaitingFor Message_Chat_ID Data ID]. eqb_lit.
  unfold topicSelected, audioFails, audioCalls. rewrite Hchat2, Hspeech, Hwrite.
  cbn [negb thenAck states mu trace Category WaitingFor]. rewrite insert_insert_eq.
  cbv beta iota. unfold bind at 1.
  rewrite RootMain_handleMessage. unfold messageHandled, session, ensured.
  cbn [Chat_ID msg_Text]. eqb_lit. rewrite lookup_insert_eq.
  cbn [default from_option id ScriptText]. rewrite (eqb_false_of_ne _ _ Hscript).
  cbv beta iota.
  unfold ret. f_equal. f_equal.
  rewrite <- !app_assoc. reflexivity.
Qed.

Lemma main_whole_flow_witness :
  ∃ tr,
    RootMain.serve
      [(typed 7 "/new", failing);
       (selected 7 "Health", answering "Nutrition, Sleep, Exercise, Mental Health, Hydration");
       (selected 7 " Exercise", answering "A script.");
       (typed 7 "/text", failing)] RootMain.initial
    = Returns tt (mkBot {[7 := mkUserState "Health" " Exercise" StateTopic "A script."]}
                    false tr)
    ∧ last tr = Some (TgSend (MessageConfig 7 "A script." None ModeMarkdown)).
Proof.
  eexists. split.
  - eapply eq_trans.
    + apply (main_whole_flow RootMain.initial 7 "Health" " Exercise"
               "Nutrition, Sleep, Exercise, Mental Health, Hydration" "A script."
               [] [] []); first [reflexivity | discriminate | (vm_compute; lia)].
    + reflexivity.
  - vm_compute. reflexivity.
Defined.

(** ** What internal/bot/bot.go never gets to *)

(** X23. In internal/bot/bot.go no script is ever stored: in every state
    reached by handling updates (with any labels), every session has an
    empty category, topic and script and is not at phase Topic, and
    [/text], from any user, is answered with the no-script notice. *)
Theorem bot_never_stores_a_script (b : Bot) :
  reachable InternalBot.handleUpdate any_label b →
  (∀ u st, states b !! u = Some st →
     Category st = "" ∧ Topic st = "" ∧ ScriptText st = "" ∧ WaitingFor st ≠ StateTopic)
  ∧ ∀ userID, ∃ sts',
      InternalBot.handleMessage (mkMessage userID "/text") b
      = Returns tt (mkBot sts' false (trace b ++ [TgSend (noScriptMessage userID)])).
Proof.
  intros [Hmu Hall]%InternalBot_reachable_keeps.
  split.
  { intros u st Hst. by destruct (Hall u st Hst) as [-> | ->]. }
  intros userID. destruct b as [sts m tr]; simpl in *; subst m.
  exists (ensured userID sts).
  rewrite InternalBot_handleMessage. unfold messageHandled.
  cbn [Chat_ID msg_Text]. eqb_lit.
  assert (ScriptText (session userID sts) = "") as ->; [|by eqb_lit].
  unfold session. destruct (sts !! userID) as [st|] eqn:Hst; [|done].
  by destruct (Hall userID st Hst) as [-> | ->].
Qed.

Lemma bot_never_stores_a_script_witness :
  ∃ b sts',
    InternalBot.Run true [(typed 7 "/new", failing); (typed 7 "hello", failing)]
      InternalBot.New = Returns true b
    ∧ InternalBot.handleMessage (mkMessage 7 "/text") b
      = Returns tt (mkBot sts' false (trace b ++ [TgSend (noScriptMessage 7)])).
Proof.
  assert (InternalBot.Run true [(typed 7 "/new", failing); (typed 7 "hello", failing)]
            InternalBot.New
          = Returns true
              (mkBot {[7 := mkUserState "" "" StateCategory ""]} false
                 [TgSetMyCommands botCommands; TgSend (categoriesMessage 7)])) as Hrun.
  { vm_compute. reflexivity. }
  assert (Forall (λ ua : Update * Answers, any_label ua.1)
            [(typed 7 "/new", failing); (typed 7 "hello", failing)]) as Hok.
  { repeat constructor. }
  destruct (bot_never_stores_a_script _
              (InternalBot_Run_reachable any_label _ _ Hok Hrun)) as [_ Htext].
  destruct (Htext 7) as [sts' Hsts'].
  eexists _, sts'. split; [exact Hrun|exact Hsts'].
Defined.

(** ** Command registration *)

Lemma RootMain_serve_app updates1 updates2 b :
  RootMain.serve (updates1 ++ updates2) b
  = match RootMain.serve updates1 b with
    | Returns _ b1 => RootMain.serve updates2 b1
    | Panics b1 => Panics b1
    | Blocks b1 => Blocks b1
    end.
Proof.
  revert b. induction updates1 as [|[update ans] updates1 IH]; intros b; [done|].
  simpl. unfold bind.
  by destruct (RootMain.handleUpdate ans update b) as [[] b1| |].
Qed.

(** X24. The two files treat a failed command registration differently,
    and both take the updates strictly in order.  [Run] of
    internal/bot/bot.go returns the error at once: no update is handled,
    no session is created, nothing but the registration request goes out.
    [main] of main.go logs the failure and serves the updates all the
    same.  In both, handling a list of updates followed by another is
    handling the first list and then, if that returned, the second from
    the state it left. *)
Theorem registration_failure_and_order (updates1 updates2 : list (Update * Answers)) :
  InternalBot.Run false (updates1 ++ updates2) InternalBot.New
  = Returns false (mkBot ∅ false [TgSetMyCommands botCommands])
  ∧ RootMain.main false (updates1 ++ updates2) RootMain.initial
    = match RootMain.serve updates1
              (mkBot ∅ false [TgSetMyCommands botCommands; LogPrintf]) with
      | Returns _ b1 => RootMain.serve updates2 b1
      | Panics b1 => Panics b1
      | Blocks b1 => Blocks b1
      end
  ∧ InternalBot.Run true (updates1 ++ updates2) InternalBot.New
    = match InternalBot.serve updates1 (mkBot ∅ false [TgSetMyCommands botCommands]) with
      | Returns _ b1 =>
          match InternalBot.serve updates2 b1 with
          | Returns _ b2 => Returns true b2
          | Panics b2 => Panics b2
          | Blocks b2 => Blocks b2
          end
      | Panics b1 => Panics b1
      | Blocks b1 => Blocks b1
      end.
Proof.
  split; [reflexivity|]. split.
  - unfold RootMain.main. go. apply RootMain_serve_app.
  - unfold InternalBot.Run. go. rewrite InternalBot_serve_app.
    by destruct (InternalBot.serve updates1 _) as [[] b1| |].
Qed.
